(** * Geo: reconciliation and aggregation of geocoding results

    A shallow embedding of [src/geo/geo.py] (class [Geo]) together with the
    fragments of the Python runtime that the class relies on: the builtin
    [float()], truthiness, [cmath.isclose], the compiled pattern
    [^POINT\((?P<x>\S+)\s+(?P<y>\S+)\)$], the [warnings] log, and the part of
    [pandas.DataFrame] that [get_multiple_method_coordinates] touches.

    Python floats are IEEE 754 binary64 numbers, so they are modelled by
    Rocq's primitive floats; Python [str] values are modelled by [string],
    one character per code point below 256. *)

From Stdlib Require Import ZArith Floats Ascii String.
From stdpp Require Import gmap strings list.

Local Open Scope Z_scope.

(** ** Exceptions and results *)

(** The namedtuple [Point = namedtuple('Point', ('address', 'x', 'y'))]. *)
Record Point := mkPoint { address : string; x : float; y : float }.


(** The exceptions that the modelled code can raise.  The three [ValueError]s
    are told apart by what raises them: the builtin [float()], the tolerance
    check of [cmath.isclose], and the explicit [raise] of line 107, whose
    message interpolates both points. *)
Inductive exn :=
| AttributeError (obj attr : string)
| TypeError (what : string)
| OverflowError
| ValueError_float (s : string)
| ValueError_tolerances
| ValueError_not_equal (wkt osm : Point).

Inductive result (A : Type) :=
| Ok (a : A)
| Raise (e : exn).
Arguments Ok {A} a.
Arguments Raise {A} e.

#[global] Instance result_ret : MRet result := fun A a => Ok a.
#[global] Instance result_bind : MBind result := fun A B f m =>
  match m with
  | Ok a => f a
  | Raise e => Raise e
  end.

(** ** The Python runtime *)
Module Py.

(** *** Characters and strings *)

(** [str.isspace] on one character, which is also the class [\s] of [re]
    on [str] patterns; [\S] is its complement. *)
Definition isspace (c : ascii) : bool :=
  let n := N_of_ascii c in
  ((9 <=? n) && (n <=? 13) || (28 <=? n) && (n <=? 32)
   || (n =? 133) || (n =? 160))%N.

Definition isdigit (c : ascii) : bool :=
  let n := N_of_ascii c in ((48 <=? n) && (n <=? 57))%N.

Definition lower (c : ascii) : ascii :=
  let n := N_of_ascii c in
  if ((65 <=? n) && (n <=? 90))%N then ascii_of_N (n + 32) else c.

(** Truthiness of a [str]: non-empty. *)
Definition truthy_str (s : string) : bool :=
  match s with
  | EmptyString => false
  | String _ _ => true
  end.

(** Longest prefix whose characters satisfy [p], and the remainder. *)
Fixpoint span (p : ascii -> bool) (s : list ascii) : list ascii * list ascii :=
  match s with
  | c :: s' =>
      if p c then let '(a, b) := span p s' in (c :: a, b) else ([], s)
  | [] => ([], [])
  end.

Fixpoint strip_prefix (p s : list ascii) : option (list ascii) :=
  match p, s with
  | [], _ => Some s
  | a :: p', b :: s' => if Ascii.eqb a b then strip_prefix p' s' else None
  | _ :: _, [] => None
  end.

(** The characters that [float()] skips at both ends of its argument: the
    six ASCII ones that C's [isspace] knows (tab, newline, vertical tab,
    form feed, carriage return, space) and, being Unicode spaces outside
    ASCII, which [float()] first turns into spaces, U+0085 and U+00A0. The
    separators U+001C to U+001F are not among them. *)
Definition isspace_float (c : ascii) : bool :=
  let n := N_of_ascii c in
  ((9 <=? n) && (n <=? 13) || (n =? 32) || (n =? 133) || (n =? 160))%N.

(** The stripping that [float()] applies to its argument. *)
Definition lstrip (s : list ascii) : list ascii := snd (span isspace_float s).
Definition strip (s : list ascii) : list ascii :=
  rev (lstrip (rev (lstrip s))).

(** *** Floats *)

(** The correctly rounded double nearest to [(-1)^neg * m * 10^e]. *)
Definition decimal_to_float (neg : bool) (m : Z) (e : Z) : float :=
  match m with
  | Zpos p =>
      if 0 <=? e
      then SF2Prim (binary_normalize prec emax
                      (if neg then - (Zpos p * 10 ^ e) else Zpos p * 10 ^ e)
                      0 neg)
      else SF2Prim (SFdiv prec emax (S754_finite neg p 0)
                      (S754_finite false (Z.to_pos (10 ^ (- e))) 0))
  | _ => if neg then (- 0)%float else 0%float
  end.

Definition digits_to_Z (ds : list ascii) : Z :=
  foldl (fun acc c => 10 * acc + (Z.of_N (N_of_ascii c) - 48)) 0 ds.

(** The rest of a [digitpart ::= digit (["_"] digit)*] after its first
    digit: the digits read and what follows them. *)
Fixpoint digitpart_rest (s : list ascii) : list ascii * list ascii :=
  match s with
  | c :: s' =>
      if isdigit c then
        let '(ds, r) := digitpart_rest s' in (c :: ds, r)
      else if Ascii.eqb c "_" then
        match s' with
        | d :: s'' =>
            if isdigit d then
              let '(ds, r) := digitpart_rest s'' in (d :: ds, r)
            else ([], s)
        | [] => ([], s)
        end
      else ([], s)
  | [] => ([], [])
  end.

(** An optional [digitpart]: no digits when [s] does not start with one. *)
Definition digitpart (s : list ascii) : list ascii * list ascii :=
  match s with
  | c :: s' =>
      if isdigit c then
        let '(ds, r) := digitpart_rest s' in (c :: ds, r)
      else ([], s)
  | [] => ([], [])
  end.

Definition sign (s : list ascii) : bool * list ascii :=
  match s with
  | c :: s' =>
      if Ascii.eqb c "-" then (true, s')
      else if Ascii.eqb c "+" then (false, s')
      else (false, s)
  | [] => (false, [])
  end.

(** [exponent ::= ("e" | "E") [sign] digitpart], or nothing. [None] when
    an exponent marker is not followed by digits. *)
Definition exponent (s : list ascii) : option (Z * list ascii) :=
  match s with
  | c :: s' =>
      if Ascii.eqb (lower c) "e" then
        let '(neg, s1) := sign s' in
        match digitpart s1 with
        | ([], _) => None
        | (ds, r) =>
            Some (if neg then - digits_to_Z ds else digits_to_Z ds, r)
        end
      else Some (0, s)
  | [] => Some (0, [])
  end.

(** [floatnumber ::= ([digitpart] "." digitpart | digitpart ["."]) [exponent]],
    read to the end of the text. *)
Definition floatnumber (neg : bool) (s : list ascii) : option float :=
  let '(ip, r) := digitpart s in
  let '(fp, r) :=
    match r with
    | c :: r' => if Ascii.eqb c "." then digitpart r' else ([], r)
    | [] => ([], r)
    end in
  match ip ++ fp with
  | [] => None
  | ds =>
      match exponent r with
      | Some (ex, []) =>
          Some (decimal_to_float neg (digits_to_Z ds) (ex - Z.of_nat (length fp)))
      | _ => None
      end
  end.

(** The builtin [float(s)] on a [str]: [None] stands for the [ValueError]
    "could not convert string to float". *)
Definition float_of_str (s : string) : option float :=
  let '(neg, body) := sign (strip (list_ascii_of_string s)) in
  let word := string_of_list_ascii (map lower body) in
  if bool_decide (word = "inf" \/ word = "infinity") then
    Some (if neg then neg_infinity else infinity)
  else if bool_decide (word = "nan") then Some nan
  else floatnumber neg body.

(** The builtin [float(n)] on an [int]: correctly rounded, and an
    [OverflowError] when [n] is beyond the range of a double. *)
Definition float_of_int (n : Z) : result float :=
  let f := SF2Prim (binary_normalize prec emax n 0 false) in
  if is_infinity f then Raise OverflowError else Ok f.

(** *** Values and truthiness *)

(** The Python values that a provider stores under the keys of its
    structured mapping. *)
Inductive pyval :=
| VNone
| VBool (b : bool)
| VInt (n : Z)
| VFloat (f : float)
| VStr (s : string).

(** [bool(v)]: what [if v] and [v and w] test. *)
Definition truthy (v : pyval) : bool :=
  match v with
  | VNone => false
  | VBool b => b
  | VInt n => negb (n =? 0)
  | VFloat f => negb (f =? 0)%float
  | VStr s => truthy_str s
  end.

(** A number that equals zero: [0], [0.0], [-0.0] and [False]. *)
Definition numerically_zero (v : pyval) : bool :=
  match v with
  | VBool b => negb b
  | VInt n => n =? 0
  | VFloat f => (f =? 0)%float
  | VNone | VStr _ => false
  end.

(** The builtin [float(v)]. *)
Definition float_of (v : pyval) : result float :=
  match v with
  | VNone => Raise (TypeError "float() argument must be a string or a real number")
  | VBool b => Ok (if b then 1%float else 0%float)
  | VInt n => float_of_int n
  | VFloat f => Ok f
  | VStr s =>
      match float_of_str s with
      | Some f => Ok f
      | None => Raise (ValueError_float s)
      end
  end.

(** *** cmath.isclose *)

(** [cmath.isclose(a, b, rel_tol=rel_tol)] on two real arguments, with the
    default [abs_tol = 0.0], following CPython's [cmath_isclose_impl]: the
    arguments become complex numbers with a zero imaginary part, so the
    modulus of a difference is the absolute value of the real difference. *)
Definition isclose (a b rel_tol : float) : result bool :=
  if (rel_tol <? 0)%float then Raise ValueError_tolerances
  else if (a =? b)%float then Ok true
  else if is_infinity a || is_infinity b then Ok false
  else
    let diff := abs (a - b)%float in
    Ok ((diff <=? rel_tol * abs b)%float
        || (diff <=? rel_tol * abs a)%float
        || (diff <=? 0)%float).

(** The builtin [max] on two floats. *)
Definition max (a b : float) : float := if (a <? b)%float then b else a.

(** The documented reading of the test:
    [abs(a - b) <= rel_tol * max(abs(a), abs(b))], in double arithmetic. *)
Definition rel_close (a b rel_tol : float) : bool :=
  (abs (a - b) <=? rel_tol * max (abs a) (abs b))%float.

End Py.

(** ** The fragment of pandas in use *)
Module Pandas.

(** A cell holds the list [[x, y]] or is null ([None] or NaN). *)
Definition cell := option (list float).

Definition isna (c : cell) : bool :=
  match c with
  | None => true
  | Some _ => false
  end.

(** A frame: its column labels and its rows, each an index label with one
    cell per column. *)
Record DataFrame := mkDataFrame {
  columns : list string;
  rows : list (string * list cell)
}.

(** [pd.DataFrame(data=data, index=index, columns=columns)] for a dict of
    lists: row [i] takes, under each label of [columns], entry [i] of the
    list stored under that label, and null where [data] has no such key. *)
Definition frame (data : gmap string (list cell)) (index columns : list string)
  : DataFrame :=
  {| columns := columns;
     rows := imap (fun i label =>
               (label, map (fun c => col ← data !! c; mjoin (col !! i)) columns))
               index |}.

(** [pd.concat(frames)] for frames that carry the same column labels: the
    rows are stacked in order. *)
Definition concat (frames : list DataFrame) : DataFrame :=
  {| columns := match frames with
                | df :: _ => columns df
                | [] => []
                end;
     rows := mjoin (map rows frames) |}.

Definition all_null (cells : list cell) : bool := forallb isna cells.

(** [df.dropna(how='all')]: the default axis is 0, so the rows whose cells
    are all null go and the column labels stay. *)
Definition dropna_all (df : DataFrame) : DataFrame :=
  {| columns := columns df;
     rows := List.filter (fun r => negb (all_null (snd r))) (rows df) |}.

(** The cells of the column at position [j], from the first row down. *)
Definition column (df : DataFrame) (j : nat) : list cell :=
  omap (fun r => snd r !! j) (rows df).

End Pandas.

(** ** Side effects: the provider's world and the warnings log *)
Section Effects.
Context {World : Type}.

Record state := mkState { world : World; warnings : list string }.

(** A computation reads and writes the state and returns or raises; the
    state survives a raise, as the warnings already emitted do. *)
Definition M (A : Type) : Type := state -> result A * state.

Definition ret {A} (a : A) : M A := fun s => (Ok a, s).
Definition raise {A} (e : exn) : M A := fun s => (Raise e, s).
Definition bind {A B} (m : M A) (f : A -> M B) : M B := fun s =>
  match m s with
  | (Ok a, s') => f a s'
  | (Raise e, s') => (Raise e, s')
  end.
Definition lift {A} (r : result A) : M A := fun s => (r, s).

(** [warnings.warn(message, Warning)]. *)
Definition warn (message : string) : M unit := fun s =>
  (Ok tt, {| world := world s; warnings := warnings s ++ [message] |}).

End Effects.
Arguments state : clear implicits.
Arguments M : clear implicits.

#[global] Instance M_ret {World} : MRet (M World) := fun A => ret.
#[global] Instance M_bind {World} : MBind (M World) := fun A B f m => bind m f.

(** ** The provider boundary *)

(** Reading an attribute of a response either raises [AttributeError] or
    yields a value. *)
Inductive attr (A : Type) :=
| Missing
| Has (a : A).
Arguments Missing {A}.
Arguments Has {A} a.

(** What a provider method returns: [wkt] is a [str] or [None], [osm] is a
    [dict] or [None], when the attribute exists at all. *)
Record Response := mkResponse {
  wkt : attr (option string);
  osm : attr (option (gmap string Py.pyval))
}.

(** A provider method [method(address, session=session)]: it moves the world
    on and returns a response, or [None] when it raises an [Exception]. *)
Definition provider (World : Type) : Type :=
  string -> World -> option Response * World.

(** ** The class Geo *)
Module Geo.

(** The two slots of an instance. *)
Record Geo := mkGeo { allowed_methods : list string; rel_tol : float }.

Definition default_allowed_methods : list string :=
  [ "arcgis"; "baidu"; "bing"; "gaode"; "geocodefarm"; "geolytica";
    "geonames"; "ottawa"; "google"; "here"; "locationiq"; "mapbox";
    "mapquest"; "opencage"; "osm"; "tamu"; "tomtom"; "w3w"; "yahoo";
    "yandex"; "tgos" ]%string.

(** The double that the literal [1e-09] denotes. *)
Definition default_rel_tol : float := 0x1.12e0be826d695p-30%float.

(** [Geo.__init__]: both arguments are stored as they come. *)
Definition init (allowed_methods : list string) (rel_tol : float) : result Geo :=
  Ok {| allowed_methods := allowed_methods; rel_tol := rel_tol |}.

(** [__wkt_pattern.search(in_str)] for the pattern
    [^POINT\((?P<x>\S+)\s+(?P<y>\S+)\)$]: the groups [x] and [y] of the
    match.  [\S] and [\s] are complementary classes, so a match leaves no
    choice: [x] is the whole run of non-space characters after the prefix,
    the separator is the whole run of space characters after it, and [y]
    is what is left before a closing parenthesis that ends the text, or
    ends it but for one final newline (where [$] matches too). *)
Definition wkt_pattern_search (in_str : string) : option (string * string) :=
  rest ← Py.strip_prefix (list_ascii_of_string "POINT(") (list_ascii_of_string in_str);
  let '(gx, rest) := Py.span (fun c => negb (Py.isspace c)) rest in
  let '(sep, rest) := Py.span Py.isspace rest in
  let '(run, rest) := Py.span (fun c => negb (Py.isspace c)) rest in
  match rev run with
  | c :: ry =>
      if Ascii.eqb c ")"
         && bool_decide (gx <> [] /\ sep <> [] /\ ry <> [])
         && bool_decide (rest = [] \/ rest = ["010"%char])
      then Some (string_of_list_ascii gx, string_of_list_ascii (rev ry))
      else None
  | [] => None
  end.

(** The pattern read as a language: the text is [POINT(], a non-empty run of
    non-space characters [gx], a non-empty run of space characters, a
    non-empty run of non-space characters [gy], a closing parenthesis, and
    then the end of the text or one newline before it. *)
Definition wkt_pattern_language (text gx gy : list ascii) : Prop :=
  exists sep nl,
    text = list_ascii_of_string "POINT(" ++ gx ++ sep ++ gy ++ [")"%char] ++ nl
    /\ gx <> [] /\ Forall (fun c => Py.isspace c = false) gx
    /\ sep <> [] /\ Forall (fun c => Py.isspace c = true) sep
    /\ gy <> [] /\ Forall (fun c => Py.isspace c = false) gy
    /\ (nl = [] \/ nl = ["010"%char]).

(** [Geo.__parse_wtk]: the [groupdict()] of the match, or [None]. *)
Definition parse_wtk (in_str : string) : option (gmap string string) :=
  match wkt_pattern_search in_str with
  | Some (gx, gy) => Some (<["x" := gx]> (<["y" := gy]> ∅))
  | None => None
  end.

(** [Geo.__get_wkt]. The [try] covers the attribute access only; the two
    [float()] calls stand in the [else] branch. *)
Definition get_wkt (address : string) (query_result : Response)
  : result (option Point) :=
  match wkt query_result with
  | Missing => Ok None
  | Has attr_wkt =>
      let wkt :=
        match attr_wkt with
        | Some s => if Py.truthy_str s then parse_wtk s else None
        | None => None
        end in
      match wkt with
      | Some groups =>
          if bool_decide (groups <> ∅) then
            let x := groups !! "x" in
            let y := groups !! "y" in
            match x, y with
            | Some x, Some y =>
                if Py.truthy_str x && Py.truthy_str y then
                  fx ← Py.float_of (Py.VStr x);
                  fy ← Py.float_of (Py.VStr y);
                  Ok (Some (mkPoint address fx fy))
                else Ok None
            | _, _ => Ok None
            end
          else Ok None
      | None => Ok None
      end
  end.

(** [Geo.__get_osm]. *)
Definition get_osm (address : string) (query_result : Response)
  : result (option Point) :=
  match osm query_result with
  | Missing => Ok None
  | Has attr_osm =>
      match attr_osm with
      | Some osm =>
          if bool_decide (osm <> ∅) then
            let x := default Py.VNone (osm !! "x") in
            let y := default Py.VNone (osm !! "y") in
            if Py.truthy x && Py.truthy y then
              fx ← Py.float_of x;
              fy ← Py.float_of y;
              Ok (Some (mkPoint address fx fy))
            else Ok None
          else Ok None
      | None => Ok None
      end
  end.

(** [Geo.__get_lat_and_lng]. A [Point] is a non-empty tuple, hence truthy:
    [wkt and osm] holds exactly when neither is [None]. *)
Definition get_lat_and_lng (self : Geo) (address : string)
    (query_result : Response) : result (option Point) :=
  wkt ← get_wkt address query_result;
  osm ← get_osm address query_result;
  match wkt, osm with
  | Some w, Some o =>
      close_x ← Py.isclose (x w) (x o) (rel_tol self);
      close_y ← (if close_x : bool then Py.isclose (y w) (y o) (rel_tol self)
                 else Ok false);
      if close_x && close_y then Ok (Some w)
      else Raise (ValueError_not_equal w o)
  | Some w, None => Ok (Some w)
  | None, _ => Ok osm
  end.

(** The argument [address]: one [str] or a list of them. *)
Inductive addresses :=
| AddrStr (a : string)
| AddrList (l : list string).

(** The argument [method_name_vec]: one [str] or an iterable of them. *)
Inductive method_names :=
| NamesStr (s : string)
| NamesList (l : list string).

(** What [get_coordinates] returns: [None], one [Point], or a list. *)
Inductive coordinates :=
| CNone
| CPoint (p : Point)
| CList (l : list (option Point)).

(** Iterating over a [str] yields its characters. *)
Definition chars (s : string) : list string :=
  map (fun c => String c EmptyString) (list_ascii_of_string s).

Definition truthy_point (v : option Point) : bool :=
  match v with
  | Some _ => true
  | None => false
  end.

(** [result if len(result) > 1 else result[0] if result else None]. *)
Definition return_convention (result : list (option Point)) : coordinates :=
  if (1 <? length result)%nat then CList result
  else match result with
       | Some p :: _ => CPoint p
       | None :: _ => CNone
       | [] => CNone
       end.

Definition could_not_get (method_name : string) : string :=
  "Could not get any data via method '" +:+ method_name +:+ "'.".

Definition dquote : string := String "034"%char EmptyString.

Definition not_found (method_name : string) : string :=
  "Method " +:+ dquote +:+ method_name +:+ dquote +:+ " not found in "
    +:+ dquote +:+ "methods_confidence_map" +:+ dquote +:+ ".".

Section Methods.
Context {World : Type}.

(** The module [geocoder]: [getattr(geocoder, method_name)]. *)
Variable geocoder : string -> option (provider World).
Variable self : Geo.

(** [res = method(addr, session=session)] under [try]. *)
Definition call (method : provider World) (addr : string)
  : M World (option Response) := fun s =>
  let '(res, w) := method addr (world s) in
  (Ok res, {| world := w; warnings := warnings s |}).

(** One turn of either loop body of [get_coordinates]: the call under
    [try], the warning under [except Exception], the append under
    [else]. *)
Definition query (method : provider World) (method_name addr : string)
    (result : list (option Point)) : M World (list (option Point)) :=
  res ← call method addr;
  match res with
  | None => warn (could_not_get method_name);; mret result
  | Some res =>
      p ← lift (get_lat_and_lng self addr res);
      mret (result ++ [p])
  end.

(** [for addr in address: ...]. *)
Fixpoint query_all (method : provider World) (method_name : string)
    (address : list string) (result : list (option Point))
  : M World (list (option Point)) :=
  match address with
  | [] => mret result
  | addr :: rest =>
      result ← query method method_name addr result;
      query_all method method_name rest result
  end.

(** [Geo.get_coordinates]. The session of the [with] block is handed to
    the provider and plays no other part. *)
Definition get_coordinates (address : addresses) (method_name : string)
    (leave_null_values : bool) : M World coordinates :=
  match geocoder method_name with
  | None => raise (AttributeError "geocoder" method_name)
  | Some method =>
      result ← match address with
               | AddrStr a => query method method_name a []
               | AddrList l => query_all method method_name l []
               end;
      let result :=
        if negb leave_null_values then List.filter truthy_point result
        else result in
      mret (return_convention result)
  end.

(** The addresses that a call queries, in order. *)
Definition batch (address : addresses) : list string :=
  match address with
  | AddrStr a => [a]
  | AddrList l => l
  end.

(** The provider calls of a batch, made in order from world [w]: what
    each call returned ([None] for a call that raised), and the world
    after the last one. *)
Fixpoint calls (method : provider World) (address : list string) (w : World)
  : list (string * option Response) * World :=
  match address with
  | [] => ([], w)
  | addr :: rest =>
      let '(res, w1) := method addr w in
      let '(more, w2) := calls method rest w1 in
      ((addr, res) :: more, w2)
  end.

(** The calls that returned, each with its address and its response. *)
Definition answered (outcomes : list (string * option Response))
  : list (string * Response) :=
  omap (fun '(addr, res) => pair addr <$> res) outcomes.

(** The number of calls that raised. *)
Definition failures (outcomes : list (string * option Response)) : nat :=
  length (List.filter
            (fun o => match snd o with None => true | Some _ => false end)
            outcomes).

(** [p] is what the reconciler returns for an answered call. *)
Definition reconciled (call : string * Response) (p : option Point) : Prop :=
  get_lat_and_lng self (fst call) (snd call) = Ok p.

(** The values that iterating over [current_res] yields: the entries of
    a list, or the three fields of a single [Point]. *)
Inductive item :=
| ItemPoint (v : option Point)
| ItemStr (s : string)
| ItemFloat (f : float).

Definition truthy_coordinates (c : coordinates) : bool :=
  match c with
  | CNone => false
  | CPoint _ => true
  | CList l => bool_decide (l <> [])
  end.

Definition iter_coordinates (c : coordinates) : result (list item) :=
  match c with
  | CNone => Raise (TypeError "'NoneType' object is not iterable")
  | CPoint p => Ok [ItemStr (address p); ItemFloat (x p); ItemFloat (y p)]
  | CList l => Ok (map ItemPoint l)
  end.

Definition iter_addresses (a : addresses) : list string :=
  match a with
  | AddrStr s => chars s
  | AddrList l => l
  end.

(** [[v.x, v.y] if v else None]. *)
Definition cell_of (v : item) : result Pandas.cell :=
  match v with
  | ItemPoint (Some p) => Ok (Some [x p; y p])
  | ItemPoint None => Ok None
  | ItemStr s =>
      if Py.truthy_str s then Raise (AttributeError "str" "x") else Ok None
  | ItemFloat f =>
      if Py.truthy (Py.VFloat f) then Raise (AttributeError "float" "x")
      else Ok None
  end.

(** The cell of an entry of a list of results: [[x, y]], or null for
    [None]. *)
Definition point_cell (v : option Point) : Pandas.cell :=
  match v with
  | Some p => Some [x p; y p]
  | None => None
  end.

(** [{k: [cell] for k, v in pairs}]: a later key overwrites an earlier
    equal one. *)
Fixpoint dict_comprehension (pairs : list (string * item))
    (acc : gmap string (list Pandas.cell))
  : result (gmap string (list Pandas.cell)) :=
  match pairs with
  | [] => Ok acc
  | (k, v) :: rest =>
      c ← cell_of v;
      dict_comprehension rest (<[k := [c]]> acc)
  end.

(** [pd.DataFrame(data=data_, index=[method_name], columns=address)]:
    pandas refuses a [str] for [columns]. *)
Definition data_frame (data_ : gmap string (list Pandas.cell))
    (method_name : string) (address : addresses) : result Pandas.DataFrame :=
  match address with
  | AddrStr _ =>
      Raise (TypeError "Index(...) must be called with a collection of some kind")
  | AddrList l => Ok (Pandas.frame data_ [method_name] l)
  end.

(** The frame that the loop body builds from a truthy [current_res]:
    the dict comprehension, then the constructor. *)
Definition contribution (address : addresses) (method_name : string)
    (current_res : coordinates) : result Pandas.DataFrame :=
  items ← iter_coordinates current_res;
  data_ ← dict_comprehension (zip (iter_addresses address) items) ∅;
  data_frame data_ method_name address.

(** The body of the loop of [get_multiple_method_coordinates]. *)
Definition visit (address : addresses) (method_name : string)
    (df_vec : list Pandas.DataFrame) : M World (list Pandas.DataFrame) :=
  if bool_decide (method_name ∉ allowed_methods self) then
    warn (not_found method_name);; mret df_vec
  else
    current_res ← get_coordinates address method_name true;
    if truthy_coordinates current_res then
      df ← lift (contribution address method_name current_res);
      mret (df_vec ++ [df])
    else mret df_vec.

Fixpoint visit_all (address : addresses) (names : list string)
    (df_vec : list Pandas.DataFrame) : M World (list Pandas.DataFrame) :=
  match names with
  | [] => mret df_vec
  | method_name :: rest =>
      df_vec ← visit address method_name df_vec;
      visit_all address rest df_vec
  end.

(** [method_name_vec if method_name_vec else self.__allowed_methods],
    as the sequence that the [for] loop walks. *)
Definition requested (method_name_vec : option method_names) : list string :=
  match method_name_vec with
  | Some (NamesStr s) => if Py.truthy_str s then chars s else allowed_methods self
  | Some (NamesList l) => if bool_decide (l <> []) then l else allowed_methods self
  | None => allowed_methods self
  end.

(** [Geo.get_multiple_method_coordinates]. *)
Definition get_multiple_method_coordinates (address : addresses)
    (method_name_vec : option method_names)
  : M World (option Pandas.DataFrame) :=
  df_vec ← visit_all address (requested method_name_vec) [];
  if bool_decide (df_vec <> []) then
    mret (Some (Pandas.dropna_all (Pandas.concat df_vec)))
  else mret None.

End Methods.

End Geo.

(** ** Concrete runs *)

(** A small world for running the class: the world counts the provider
    calls made so far. *)
Module Scenario.
Import Geo.

Definition geo : Geo :=
  {| allowed_methods := default_allowed_methods; rel_tol := default_rel_tol |}.

Definition start : state nat := {| world := 0%nat; warnings := [] |}.

(** Both representations present and equal. *)
Definition agreeing : Response :=
  {| wkt := Has (Some "POINT(1 2)"%string);
     osm := Has (Some (<["x" := Py.VFloat 1]> (<["y" := Py.VInt 2]> ∅))) |}.

(** Both representations present, apart by [5e-10] on the second axis. *)
Definition nearly : Response :=
  {| wkt := Has (Some "POINT(1.0 2.0)"%string);
     osm := Has (Some (<["x" := Py.VStr "1.0"]>
                         (<["y" := Py.VStr "2.0000000005"]> ∅))) |}.

(** Both representations present, different on the second axis. *)
Definition disagreeing : Response :=
  {| wkt := Has (Some "POINT(1 2)"%string);
     osm := Has (Some (<["x" := Py.VFloat 1]> (<["y" := Py.VInt 3]> ∅))) |}.

(** A response of a provider that found nothing. *)
Definition nothing : Response :=
  {| wkt := Has (Some EmptyString); osm := Has (Some ∅) |}.

Definition osm_only : Response :=
  {| wkt := Has None;
     osm := Has (Some (<["x" := Py.VStr "-122.084"]> (<["y" := Py.VStr "37.4220"]> ∅))) |}.

(** A well-known text that fits the pattern with tokens that are no
    numbers. *)
Definition malformed : Response :=
  {| wkt := Has (Some "POINT(abc def)"%string); osm := Has (Some ∅) |}.

(** A mapping with both keys, on the axis [x = 0]. *)
Definition on_axis : Response :=
  {| wkt := Missing;
     osm := Has (Some (<["x" := Py.VInt 0]> (<["y" := Py.VFloat 37.5]> ∅))) |}.

(** The provider behind [osm]: it raises for [a2] and [a4], finds nothing
    for [b], and answers every other address. *)
Definition osm_method : provider nat := fun addr calls =>
  (if bool_decide (addr = "a2" \/ addr = "a4")%string then None
   else if bool_decide (addr = "b")%string then Some nothing
   else if bool_decide (addr = "c")%string then Some disagreeing
   else if bool_decide (addr = "m")%string then Some malformed
   else Some agreeing,
   S calls).

(** The provider behind [bing] finds nothing at all. *)
Definition bing_method : provider nat := fun addr calls =>
  (Some nothing, S calls).

Definition geocoder (method_name : string) : option (provider nat) :=
  if bool_decide (method_name = "osm"%string) then Some osm_method
  else if bool_decide (method_name = "bing"%string) then Some bing_method
  else None.

Definition five : list string := ["a1"; "a2"; "a3"; "a4"; "a5"]%string.

(** Both representations in the western hemisphere, and a provider that
    answers every address with them. *)
Definition west : Response :=
  {| wkt := Has (Some "POINT(-122 37)"%string);
     osm := Has (Some (<["x" := Py.VFloat (-122)]> (<["y" := Py.VInt 37]> ∅))) |}.

Definition west_geocoder (method_name : string) : option (provider nat) :=
  Some (fun addr calls => (Some west, S calls)).



(** A mapping whose [x] is a text that is no number. *)
Definition osm_text : Response :=
  {| wkt := Has None;
     osm := Has (Some (<["x" := Py.VStr "north"]> (<["y" := Py.VInt 2]> ∅))) |}.

(** A mapping without the key [y]. *)
Definition osm_half : Response :=
  {| wkt := Missing; osm := Has (Some (<["x" := Py.VFloat 1]> ∅)) |}.

(** An instance with a negative tolerance, and one with no allowed method. *)
Definition negative : Geo :=
  {| allowed_methods := default_allowed_methods; rel_tol := (-1)%float |}.
Definition closed : Geo := {| allowed_methods := []; rel_tol := default_rel_tol |}.

End Scenario.

(** * Properties *)

Import Geo.

(** ** Results *)
Section Results.
Context {A B : Type}.
Implicit Types (m : result A) (f : A -> result B).

Lemma result_bind_Ok m f b :
  m ≫= f = Ok b <-> exists a, m = Ok a /\ f a = Ok b.
Proof.
  destruct m as [a|e]; simpl; split.
  - eauto.
  - by intros (? & [= <-] & ?).
  - discriminate.
  - by intros (? & [=] & _).
Qed.

End Results.

(** Splits a hypothesis on a successful sequence of fallible steps into one
    hypothesis per step. *)
Ltac invert_Ok H :=
  repeat match type of H with
         | _ ≫= _ = Ok _ =>
             let a := fresh "a" in
             let Ha := fresh "Hstep" in
             apply result_bind_Ok in H as (a & Ha & H)
         end.

(** ** The closeness test *)
Section Closeness.
Implicit Types a b r : float.

Lemma isclose_tolerance a b r c :
  Py.isclose a b r = Ok c -> (r <? 0)%float = false.
Proof.
  unfold Py.isclose. destruct (r <? 0)%float; [discriminate | reflexivity].
Qed.

Lemma isclose_returns a b r :
  (r <? 0)%float = false -> exists c, Py.isclose a b r = Ok c.
Proof.
  intros Hr. unfold Py.isclose. rewrite Hr.
  destruct (a =? b)%float; [eauto |].
  destruct (is_infinity a || is_infinity b); eauto.
Qed.

Lemma isclose_negative a b r :
  (r <? 0)%float = true -> Py.isclose a b r = Raise ValueError_tolerances.
Proof. intros Hr. unfold Py.isclose. by rewrite Hr. Qed.



End Closeness.

(** ** The pattern *)
Section Pattern.

Lemma string_of_list_ascii_truthy (l : list ascii) :
  l <> [] -> Py.truthy_str (string_of_list_ascii l) = true.
Proof. by destruct l. Qed.

Lemma strip_prefix_nonempty (p : list ascii) (s : string) rest :
  p <> [] ->
  Py.strip_prefix p (list_ascii_of_string s) = Some rest ->
  Py.truthy_str s = true.
Proof. destruct p, s; simpl; congruence. Qed.

(** A match makes the text and both groups non-empty. *)
Lemma wkt_pattern_search_truthy in_str gx gy :
  wkt_pattern_search in_str = Some (gx, gy) ->
  Py.truthy_str in_str = true /\ Py.truthy_str gx = true
  /\ Py.truthy_str gy = true.
Proof.
  unfold wkt_pattern_search.
  destruct (Py.strip_prefix _ _) as [rest|] eqn:Hprefix; [simpl | discriminate].
  destruct (Py.span _ rest) as [tx rest1].
  destruct (Py.span _ rest1) as [sep rest2].
  destruct (Py.span _ rest2) as [run rest3].
  destruct (rev run) as [|c ry]; [discriminate |].
  destruct (Ascii.eqb c ")"); [simpl | discriminate].
  case_bool_decide as Hgroups; [simpl | discriminate].
  case_bool_decide; [| discriminate].
  intros [= <- <-]. destruct Hgroups as (Hx & _ & Hy).
  split; [by eapply strip_prefix_nonempty, Hprefix |].
  split; apply string_of_list_ascii_truthy; [done |].
  intros Hrev. apply Hy. destruct ry as [|d ry']; [done |].
  simpl in Hrev. by destruct (rev ry').
Qed.

Lemma parse_wtk_groups in_str gx gy :
  wkt_pattern_search in_str = Some (gx, gy) ->
  exists groups, parse_wtk in_str = Some groups /\ groups <> ∅
    /\ groups !! "x"%string = Some gx /\ groups !! "y"%string = Some gy.
Proof.
  intros Hsearch. unfold parse_wtk. rewrite Hsearch.
  eexists. split; [reflexivity |].
  split; [apply insert_non_empty |].
  split; [apply lookup_insert_eq |].
  rewrite lookup_insert_ne by discriminate. apply lookup_insert_eq.
Qed.

(** [span] cuts where the first character outside [p] stands. *)
Lemma span_spec (p : ascii -> bool) (l a b : list ascii) :
  Py.span p l = (a, b) <->
  l = a ++ b /\ Forall (fun c => p c = true) a
  /\ match b with c :: _ => p c = false | [] => True end.
Proof.
  revert a b. induction l as [|c l IH]; intros a b; simpl.
  - split.
    + by intros [= <- <-].
    + intros (Hl & _ & _). symmetry in Hl.
      by apply app_eq_nil in Hl as [-> ->].
  - destruct (p c) eqn:Hc.
    + split.
      * destruct (Py.span p l) as [a' b'] eqn:Hspan.
        intros [= <- <-]. destruct (proj1 (IH a' b') eq_refl) as (-> & Ha & Hb).
        split_and!; [done | by constructor | done].
      * intros (Hl & Ha & Hb). destruct a as [|c' a].
        { simpl in Hl. subst b. congruence. }
        injection Hl as <- ->. apply Forall_cons_1 in Ha as [_ Ha].
        by rewrite (proj2 (IH a b)).
    + split.
      * intros [= <- <-]. by split_and!.
      * intros (Hl & Ha & Hb). destruct a as [|c' a].
        { simpl in Hl. by subst b. }
        injection Hl as <- ->. apply Forall_cons_1 in Ha as [Ha _]. congruence.
Qed.

Lemma strip_prefix_spec (p l rest : list ascii) :
  Py.strip_prefix p l = Some rest <-> l = p ++ rest.
Proof.
  revert l. induction p as [|a p IH]; intros l; simpl.
  - split; [by intros [= ->] | by intros ->].
  - destruct l as [|b l]; [by split |].
    destruct (Ascii.eqb a b) eqn:Hab.
    + apply Ascii.eqb_eq in Hab as ->. rewrite IH.
      split; [by intros -> | by intros [= ->]].
    + apply Ascii.eqb_neq in Hab. split; [done | by intros [= <- _]].
Qed.

Lemma Forall_not_space (l : list ascii) :
  Forall (fun c => negb (Py.isspace c) = true) l
  <-> Forall (fun c => Py.isspace c = false) l.
Proof. apply Forall_proper; [| done]. intros c. apply negb_true_iff. Qed.

(** The search finds exactly the texts of the pattern's language, with
    their two groups. *)
Lemma wkt_pattern_search_language (in_str gx gy : string) :
  wkt_pattern_search in_str = Some (gx, gy) <->
  wkt_pattern_language (list_ascii_of_string in_str)
    (list_ascii_of_string gx) (list_ascii_of_string gy).
Proof.
  unfold wkt_pattern_search, wkt_pattern_language. split.
  - destruct (Py.strip_prefix _ _) as [rest|] eqn:Hprefix; [simpl | discriminate].
    apply strip_prefix_spec in Hprefix.
    destruct (Py.span _ rest) as [tx rest1] eqn:Hx.
    destruct (Py.span _ rest1) as [sep rest2] eqn:Hsep.
    destruct (Py.span _ rest2) as [run nl] eqn:Hy.
    apply span_spec in Hx as (-> & Hx & _).
    apply span_spec in Hsep as (-> & Hsep & _).
    apply span_spec in Hy as (-> & Hy & _).
    destruct (rev run) as [|c ry] eqn:Hrun; [discriminate |].
    destruct (Ascii.eqb c ")") eqn:Hc; [simpl | discriminate].
    apply Ascii.eqb_eq in Hc as ->.
    case_bool_decide as Hgroups; [simpl | discriminate].
    case_bool_decide as Hnl; [| discriminate].
    intros [= <- <-]. destruct Hgroups as (Hgx & Hgsep & Hgy).
    rewrite !list_ascii_of_string_of_list_ascii.
    apply (f_equal (@rev ascii)) in Hrun.
    rewrite rev_involutive in Hrun. simpl in Hrun.
    subst run. apply Forall_not_space, Forall_app in Hy as [Hy _].
    exists sep, nl. rewrite Hprefix, <- !app_assoc.
    split_and!; try done.
    + by apply Forall_not_space.
    + intros Hrev. apply Hgy. destruct ry as [|d ry']; [done |].
      simpl in Hrev. by destruct (rev ry').
  - intros (sep & nl & Htext & Hgx & Hx & Hgsep & Hsep & Hgy & Hy & Hnl).
    rewrite (proj2 (strip_prefix_spec _ _ _) Htext). simpl.
    destruct sep as [|c0 sep]; [done |].
    destruct (list_ascii_of_string gy) as [|c1 ty] eqn:Hty; [done |].
    rewrite (proj2 (span_spec _ _ (list_ascii_of_string gx)
                      ((c0 :: sep) ++ (c1 :: ty) ++ [")"%char] ++ nl))).
    2:{ split_and!; [done | by apply Forall_not_space |]. simpl.
        apply Forall_cons_1 in Hsep as [Hc0 _]. by rewrite Hc0. }
    rewrite (proj2 (span_spec _ _ (c0 :: sep) ((c1 :: ty) ++ [")"%char] ++ nl))).
    2:{ split_and!; [done | done |]. simpl.
        by apply Forall_cons_1 in Hy as [Hc1 _]. }
    rewrite (proj2 (span_spec _ ((c1 :: ty) ++ [")"%char] ++ nl)
                      ((c1 :: ty) ++ [")"%char]) nl)).
    2:{ split_and!; [by rewrite <- app_assoc | |].
        - apply Forall_not_space, Forall_app. split; [done |].
          by repeat constructor.
        - by destruct Hnl as [-> | ->]. }
    rewrite rev_app_distr. simpl rev at 1. simpl app at 1. lazy iota beta.
    rewrite Ascii.eqb_refl.
    rewrite bool_decide_eq_true_2.
    2:{ split_and!; [done | done |]. by destruct (rev ty). }
    rewrite bool_decide_eq_true_2 by done. simpl andb. lazy iota.
    rewrite rev_app_distr, rev_involutive. simpl app. rewrite <- Hty.
    by rewrite !string_of_list_ascii_of_string.
Qed.

End Pattern.

(** ** Extraction of the two candidates *)
Section Extraction.
Implicit Types (addr : string) (query_result : Response).

Lemma numerically_zero_falsy (v : Py.pyval) :
  Py.numerically_zero v = true -> Py.truthy v = false.
Proof. destruct v as [|[]| | |]; simpl; try done; by intros ->. Qed.

Lemma float_of_VStr (s : string) :
  Py.float_of (Py.VStr s) =
    match Py.float_of_str s with
    | Some f => Ok f
    | None => Raise (ValueError_float s)
    end.
Proof. reflexivity. Qed.

(** What [__get_wkt] does once the attribute holds a text that the
    pattern matches. *)
Lemma get_wkt_matched addr query_result in_str gx gy :
  wkt query_result = Has (Some in_str) ->
  wkt_pattern_search in_str = Some (gx, gy) ->
  get_wkt addr query_result =
    (fx ← Py.float_of (Py.VStr gx);
     fy ← Py.float_of (Py.VStr gy);
     Ok (Some (mkPoint addr fx fy))).
Proof.
  intros Hattr Hsearch.
  destruct (wkt_pattern_search_truthy _ _ _ Hsearch) as (Hs & Hx & Hy).
  destruct (parse_wtk_groups _ _ _ Hsearch) as (groups & Hparse & Hne & Hgx & Hgy).
  unfold get_wkt. rewrite Hattr, Hs, Hparse.
  rewrite bool_decide_eq_true_2 by done.
  by rewrite Hgx, Hgy, Hx, Hy.
Qed.

(** Every candidate carries the address it was extracted for. *)
Lemma get_wkt_address addr query_result p :
  get_wkt addr query_result = Ok (Some p) -> address p = addr.
Proof.
  unfold get_wkt. intros H.
  repeat match type of H with
         | context [match ?t with _ => _ end] => destruct t; simplify_eq/=
         end; try done.
Qed.

Lemma get_osm_address addr query_result p :
  get_osm addr query_result = Ok (Some p) -> address p = addr.
Proof.
  unfold get_osm. intros H.
  repeat match type of H with
         | context [match ?t with _ => _ end] => destruct t; simplify_eq/=
         end; try done.
  invert_Ok H. by simplify_eq/=.
Qed.

Lemma get_lat_and_lng_address self addr query_result p :
  get_lat_and_lng self addr query_result = Ok (Some p) -> address p = addr.
Proof.
  unfold get_lat_and_lng. intros H. invert_Ok H.
  destruct a as [w|], a0 as [o|]; simplify_eq/=.
  - invert_Ok H. apply get_wkt_address in Hstep.
    destruct (_ && _); by simplify_eq/=.
  - by apply get_wkt_address in Hstep.
  - by apply get_osm_address in Hstep0.
Qed.

End Extraction.

(** ** Construction *)

(** C2, as the code has it: construction validates nothing. Whatever the
    relative tolerance, strictly positive or not, [Geo.__init__] succeeds and
    stores both arguments unchanged; no error is raised at construction
    time. *)
Theorem init_accepts_every_tolerance (allowed : list string) (tol : float) :
  exists self,
    init allowed tol = Ok self
    /\ allowed_methods self = allowed /\ rel_tol self = tol.
Proof. eexists. by split_and!. Qed.

(** C2 fails as stated: a zero tolerance and a negative tolerance are both
    accepted by the constructor. *)
Lemma init_zero_and_negative_tolerance :
  init default_allowed_methods 0 =
    Ok {| allowed_methods := default_allowed_methods; rel_tol := 0 |}
  /\ init default_allowed_methods (-1) =
    Ok {| allowed_methods := default_allowed_methods; rel_tol := (-1) |}
  /\ (0 <=? 0)%float = true /\ (-1 <? 0)%float = true.
Proof. split_and!; reflexivity. Qed.

(** [float()] on signed and padded texts: the sign is kept whatever the
    exponent, and of the characters at the ends only those that [float()]
    skips are skipped. *)
Lemma float_of_str_signs_and_padding :
  Py.float_of_str "-122" = Some (-122)%float
  /\ Py.float_of_str "-1e5" = Some (-100000)%float
  /\ Py.float_of_str "-1.5e1" = Some (-15)%float
  /\ Py.float_of_str "-1e400" = Some neg_infinity
  /\ Py.float_of_str "-0" = Some (-0)%float
  /\ Py.float_of_str (String "009"%char " 1.5 ") = Some 1.5%float
  /\ Py.float_of_str (String "160"%char "1.5") = Some 1.5%float
  /\ Py.float_of_str (String "028"%char "1.5") = None
  /\ Py.float_of_str ("1.5" +:+ String "031"%char EmptyString) = None.
Proof. split_and!; vm_compute; reflexivity. Qed.

(** The default tolerance is what [float()] reads in the literal. *)
Lemma default_rel_tol_literal : Py.float_of_str "1e-09" = Some default_rel_tol.
Proof. vm_compute. reflexivity. Qed.

(** A negative tolerance is refused later, by [isclose], the first time two
    candidates are compared; a zero tolerance never is. *)
Lemma negative_tolerance_surfaces_on_comparison self addr query_result w o :
  (rel_tol self <? 0)%float = true ->
  get_wkt addr query_result = Ok (Some w) ->
  get_osm addr query_result = Ok (Some o) ->
  get_lat_and_lng self addr query_result = Raise ValueError_tolerances.
Proof.
  intros Htol Hw Ho. unfold get_lat_and_lng. rewrite Hw, Ho. simpl.
  rewrite !(isclose_negative _ _ _ Htol). reflexivity.
Qed.

(** ** Reconciliation *)

(** C4, as the code has it: when the WKT attribute matches the pattern and a
    matched token is not parseable as a double, [float()] raises its
    [ValueError] outside the [try]; the extraction yields no candidate and
    the error propagates through the reconciler to the caller. It names the
    first token that does not parse. *)
Theorem get_wkt_unparseable_raises self addr query_result in_str gx gy :
  wkt query_result = Has (Some in_str) ->
  wkt_pattern_search in_str = Some (gx, gy) ->
  Py.float_of_str gx = None \/ Py.float_of_str gy = None ->
  let bad := match Py.float_of_str gx with Some _ => gy | None => gx end in
  get_wkt addr query_result = Raise (ValueError_float bad)
  /\ get_lat_and_lng self addr query_result = Raise (ValueError_float bad).
Proof.
  intros Hattr Hsearch Hbad bad.
  assert (get_wkt addr query_result = Raise (ValueError_float bad)) as Hraise.
  { rewrite (get_wkt_matched _ _ _ _ _ Hattr Hsearch), !float_of_VStr.
    subst bad. destruct (Py.float_of_str gx); simpl; [| done].
    destruct Hbad as [? | ->]; done. }
  split; [done |]. unfold get_lat_and_lng. by rewrite Hraise.
Qed.

Lemma get_wkt_unparseable_raises_witness :
  get_wkt "a" Scenario.malformed = Raise (ValueError_float "abc")
  /\ get_lat_and_lng Scenario.geo "a" Scenario.malformed
     = Raise (ValueError_float "abc").
Proof.
  apply (get_wkt_unparseable_raises Scenario.geo "a" Scenario.malformed
           "POINT(abc def)" "abc" "def").
  - reflexivity.
  - vm_compute. reflexivity.
  - left. vm_compute. reflexivity.
Defined.

(** C4 fails as stated: the text [POINT(abc def)] matches the pattern, its
    tokens are no doubles, and the extraction raises where the claim has it
    return no candidate in silence. *)
Lemma get_wkt_malformed_propagates :
  wkt_pattern_search "POINT(abc def)" = Some ("abc", "def")%string
  /\ Py.float_of_str "abc" = None
  /\ get_wkt "a" Scenario.malformed <> Ok None
  /\ fst (get_coordinates Scenario.geocoder Scenario.geo (AddrStr "m") "osm"
            false Scenario.start)
     = Raise (ValueError_float "abc").
Proof. vm_compute. by split_and!. Qed.




(** C9: a structured mapping that holds both keys yields no candidate as
    soon as one of the two values is falsy, and a value that is numerically
    zero is falsy: presence is tested on the values, not on the keys. *)
Theorem get_osm_zero_is_absent addr query_result (d : gmap string Py.pyval) vx vy :
  osm query_result = Has (Some d) ->
  d !! "x"%string = Some vx ->
  d !! "y"%string = Some vy ->
  Py.numerically_zero vx = true \/ Py.numerically_zero vy = true
  \/ Py.truthy vx = false \/ Py.truthy vy = false ->
  get_osm addr query_result = Ok None.
Proof.
  intros Hattr Hx Hy Hfalsy. unfold get_osm. rewrite Hattr, Hx, Hy. simpl.
  case_bool_decide; [| done].
  assert (Py.truthy vx && Py.truthy vy = false) as ->; [| done].
  destruct Hfalsy as [->%numerically_zero_falsy | [->%numerically_zero_falsy | [-> | ->]]];
    by rewrite ?andb_false_r.
Qed.

Lemma get_osm_zero_is_absent_witness :
  get_osm "equator" Scenario.on_axis = Ok None.
Proof.
  apply (get_osm_zero_is_absent "equator" Scenario.on_axis
           (<["x" := Py.VInt 0]> (<["y" := Py.VFloat 37.5]> ∅))
           (Py.VInt 0) (Py.VFloat 37.5)).
  - reflexivity.
  - vm_compute. reflexivity.
  - vm_compute. reflexivity.
  - left. reflexivity.
Defined.

(** ** Running effectful code *)
Section Running.
Context {World : Type} {A B : Type}.
Implicit Types (m : M World A) (f : A -> M World B) (s : state World).

Lemma run_bind m f s :
  (m ≫= f) s =
    match m s with
    | (Ok a, s') => f a s'
    | (Raise e, s') => (Raise e, s')
    end.
Proof. reflexivity. Qed.

Lemma run_bind_Ok m f s b s' :
  (m ≫= f) s = (Ok b, s') <->
  exists a s1, m s = (Ok a, s1) /\ f a s1 = (Ok b, s').
Proof.
  rewrite run_bind. destruct (m s) as [[a|e] s1]; split.
  - eauto.
  - by intros (? & ? & [= <- <-] & ?).
  - discriminate.
  - by intros (? & ? & [=] & _).
Qed.

Lemma run_lift (r : result A) s : lift r s = (r, s).
Proof. reflexivity. Qed.

End Running.

(** ** Dispatching one provider *)
Section Dispatch.
Context {World : Type}.
Variable geocoder : string -> option (provider World).
Variable self : Geo.
Implicit Types (method : provider World) (s : state World).
Implicit Types (result ps : list (option Point)).

(** A single address is queried as a batch of one. *)
Lemma query_all_one method method_name addr result s :
  query_all self method method_name [addr] result s
  = query self method method_name addr result s.
Proof.
  simpl. rewrite run_bind. by destruct (query _ _ _ _ _ _) as [[?|?] ?].
Qed.

(** One turn of the loop, by the outcome of the provider call. *)
Lemma query_raised method method_name addr result s w :
  method addr (world s) = (None, w) ->
  query self method method_name addr result s
  = (Ok result, {| world := w;
                   warnings := warnings s ++ [could_not_get method_name] |}).
Proof. intros Hcall. unfold query, call. rewrite run_bind, Hcall. reflexivity. Qed.

Lemma query_answered method method_name addr result s w res :
  method addr (world s) = (Some res, w) ->
  query self method method_name addr result s
  = (match get_lat_and_lng self addr res with
     | Ok p => Ok (result ++ [p])
     | Raise e => Raise e
     end, {| world := w; warnings := warnings s |}).
Proof.
  intros Hcall. unfold query, call. rewrite run_bind, Hcall.
  rewrite run_bind, run_lift. by destruct (get_lat_and_lng _ _ _).
Qed.

(** The whole loop, when the reconciler accepts every answered call: the
    results are appended in call order, every call is made, and each call
    that raised left one warning. *)
Lemma query_all_Ok method method_name l result s ps :
  Forall2 (reconciled self) (answered (calls method l (world s)).1) ps ->
  query_all self method method_name l result s
  = (Ok (result ++ ps),
     {| world := (calls method l (world s)).2;
        warnings := warnings s
          ++ replicate (failures (calls method l (world s)).1)
               (could_not_get method_name) |}).
Proof.
  revert result s ps. induction l as [|addr rest IH]; intros result s ps.
  - simpl. intros ->%Forall2_nil_inv_l. rewrite !app_nil_r. by destruct s.
  - simpl. rewrite run_bind.
    destruct (method addr (world s)) as [[res|] w] eqn:Hcall;
      destruct (calls method rest w) as [more w'] eqn:Hrest; simpl.
    + intros (p & ps' & Hp & Hps & ->)%Forall2_cons_inv_l.
      rewrite (query_answered _ _ _ _ _ _ _ Hcall).
      unfold reconciled in Hp. simpl in Hp. rewrite Hp.
      rewrite (IH _ _ ps'); simpl; rewrite Hrest; [| done].
      by rewrite <- app_assoc.
    + intros Hps. rewrite (query_raised _ _ _ _ _ _ Hcall).
      rewrite (IH _ _ ps); simpl; rewrite Hrest; [| done].
      simpl. by rewrite <- app_assoc.
Qed.

(** Conversely, a loop that returns has reconciled every answered call. *)
Lemma query_all_inv method method_name l result s out s' :
  query_all self method method_name l result s = (Ok out, s') ->
  exists ps,
    out = result ++ ps
    /\ Forall2 (reconciled self) (answered (calls method l (world s)).1) ps.
Proof.
  revert result s. induction l as [|addr rest IH]; intros result s.
  - simpl. intros [= <- <-]. exists []. by rewrite app_nil_r.
  - simpl. rewrite run_bind.
    destruct (method addr (world s)) as [[res|] w] eqn:Hcall;
      destruct (calls method rest w) as [more w'] eqn:Hrest; simpl.
    + rewrite (query_answered _ _ _ _ _ _ _ Hcall).
      destruct (get_lat_and_lng self addr res) as [p|e] eqn:Hp; [| done].
      intros (ps & -> & Hps)%IH. simpl in Hps. rewrite Hrest in Hps.
      exists (p :: ps). split; [by rewrite <- app_assoc |].
      by constructor.
    + rewrite (query_raised _ _ _ _ _ _ Hcall).
      intros (ps & -> & Hps)%IH. simpl in Hps. rewrite Hrest in Hps.
      by exists ps.
Qed.

(** The addresses of the calls are the addresses of the batch. *)
Lemma calls_addresses method l w : (calls method l w).1.*1 = l.
Proof.
  revert w. induction l as [|addr rest IH]; intros w; [done |].
  simpl. destruct (method addr w) as [res w1].
  specialize (IH w1). destruct (calls method rest w1) as [more w2].
  simpl in *. by f_equal.
Qed.

Lemma answered_sublist (outcomes : list (string * option Response)) :
  (answered outcomes).*1 `sublist_of` outcomes.*1.
Proof.
  induction outcomes as [|[addr [res|]] rest IH]; simpl.
  - constructor.
  - by constructor.
  - by constructor.
Qed.

(** The points stand in the order of the calls that produced them. *)
Lemma reconciled_addresses (answers : list (string * Response)) ps :
  Forall2 (reconciled self) answers ps ->
  omap (fmap address) ps `sublist_of` answers.*1.
Proof.
  induction 1 as [|[addr res] [p|] answers ps Hp _ IH]; simpl.
  - constructor.
  - apply get_lat_and_lng_address in Hp. simpl in Hp. rewrite Hp.
    by constructor.
  - by constructor.
Qed.

Lemma omap_filter_truthy_point {C} (f : Point -> C) ps :
  omap (fmap f) (List.filter truthy_point ps) = omap (fmap f) ps.
Proof. induction ps as [|[p|] ps IH]; simpl; [done | by f_equal | done]. Qed.

Lemma filter_truthy_point_Some ps :
  Forall is_Some (List.filter truthy_point ps).
Proof.
  induction ps as [|[p|] ps IH]; simpl; [constructor | | done].
  constructor; eauto.
Qed.

Lemma answered_length (outcomes : list (string * option Response)) :
  (length (answered outcomes) + failures outcomes = length outcomes)%nat.
Proof.
  unfold failures, answered.
  induction outcomes as [|[addr [res|]] rest IH]; simpl in *; [done | |].
  - f_equal. exact IH.
  - rewrite Nat.add_succ_r. f_equal. exact IH.
Qed.

(** The results of a batch are as many as its addresses less the calls
    that raised: a call that raises leaves no position behind. *)
Lemma results_count method l s ps :
  Forall2 (reconciled self) (answered (calls method l (world s)).1) ps ->
  (length ps + failures (calls method l (world s)).1 = length l)%nat.
Proof.
  intros Hps%Forall2_length. rewrite <- Hps, answered_length.
  by rewrite <- (calls_addresses method l (world s)) at 2; rewrite length_fmap.
Qed.

(** A batch is queried part after part. *)
Lemma query_all_app method method_name l1 l2 result s :
  query_all self method method_name (l1 ++ l2) result s
  = (query_all self method method_name l1 result
       ≫= query_all self method method_name l2) s.
Proof.
  revert result s. induction l1 as [|addr rest IH]; intros result s; [done |].
  simpl. rewrite !run_bind.
  destruct (query _ _ _ _ _ _) as [[out|e] s1]; [| done].
  by rewrite IH, run_bind.
Qed.

(** An error of the reconciler leaves the loop at once. *)
Lemma query_all_raises method method_name addr rest result s w res e :
  method addr (world s) = (Some res, w) ->
  get_lat_and_lng self addr res = Raise e ->
  query_all self method method_name (addr :: rest) result s
  = (Raise e, {| world := w; warnings := warnings s |}).
Proof.
  intros Hcall Hraise. simpl.
  by rewrite run_bind, (query_answered _ _ _ _ _ _ _ Hcall), Hraise.
Qed.

(** What [get_coordinates] does to the list that the loop returns. *)
Lemma get_coordinates_run addrs method_name method leave s :
  geocoder method_name = Some method ->
  get_coordinates geocoder self addrs method_name leave s
  = match query_all self method method_name (batch addrs) [] s with
    | (Ok result, s') =>
        (Ok (return_convention
               (if leave then result else List.filter truthy_point result)), s')
    | (Raise e, s') => (Raise e, s')
    end.
Proof.
  intros Hmethod. unfold get_coordinates. rewrite Hmethod, run_bind.
  assert (match addrs with
          | AddrStr a => query self method method_name a []
          | AddrList l => query_all self method method_name l []
          end s = query_all self method method_name (batch addrs) [] s) as ->.
  { destruct addrs; [| done]. by rewrite <- query_all_one. }
  destruct (query_all _ _ _ _ _ _) as [[result|e] s']; [| done].
  by destruct leave.
Qed.

(** A call that returns has found its provider and reconciled every
    answered call. *)
Lemma get_coordinates_inv addrs method_name leave s c s' :
  get_coordinates geocoder self addrs method_name leave s = (Ok c, s') ->
  exists method ps,
    geocoder method_name = Some method
    /\ Forall2 (reconciled self)
         (answered (calls method (batch addrs) (world s)).1) ps
    /\ c = return_convention
             (if leave then ps else List.filter truthy_point ps).
Proof.
  destruct (geocoder method_name) as [method|] eqn:Hmethod;
    [| unfold get_coordinates; by rewrite Hmethod].
  rewrite (get_coordinates_run _ _ _ _ _ Hmethod).
  destruct (query_all _ _ _ _ _ _) as [[out|e] s1] eqn:Hloop; [| done].
  apply query_all_inv in Hloop as (ps & -> & Hps).
  intros [= <- _]. by exists method, ps.
Qed.

End Dispatch.

(** C7: the return convention of [get_coordinates]. Let [results] be what
    the reconciler gave for the calls that returned, in call order, after
    null-filtering unless null values are kept: no result yields [None], one
    result yields that result itself, more than one yield the list; the
    addresses of the points follow the order of the input addresses. *)
Theorem get_coordinates_return_convention {World}
    (geocoder : string -> option (provider World)) (self : Geo)
    (addrs : addresses) (method_name : string) (method : provider World)
    (leave : bool) (s : state World) (ps : list (option Point)) :
  geocoder method_name = Some method ->
  Forall2 (reconciled self) (answered (calls method (batch addrs) (world s)).1) ps ->
  let results := if leave then ps else List.filter truthy_point ps in
  let returned := (get_coordinates geocoder self addrs method_name leave s).1 in
  (results = [] -> returned = Ok CNone)
  /\ (forall r, results = [r] ->
        returned = Ok (match r with Some p => CPoint p | None => CNone end))
  /\ ((1 < length results)%nat -> returned = Ok (CList results))
  /\ omap (fmap address) results `sublist_of` batch addrs
  /\ (leave = false -> Forall is_Some results).
Proof.
  intros Hmethod Hps results returned.
  assert (returned = Ok (return_convention results)) as ->.
  { subst returned results.
    by rewrite (get_coordinates_run _ _ _ _ _ _ _ Hmethod),
      (query_all_Ok _ _ _ _ _ _ _ Hps). }
  split_and!.
  - by intros ->.
  - intros r ->. by destruct r.
  - unfold return_convention. intros Hlen.
    by apply Nat.ltb_lt in Hlen as ->.
  - assert (omap (fmap address) results = omap (fmap address) ps) as ->.
    { subst results. destruct leave; [done |]. apply omap_filter_truthy_point. }
    etrans; [by eapply reconciled_addresses |].
    etrans; [apply answered_sublist |].
    by rewrite calls_addresses.
  - intros ->. apply filter_truthy_point_Some.
Qed.

Lemma get_coordinates_return_convention_witness :
  (get_coordinates Scenario.geocoder Scenario.geo (AddrList Scenario.five)
     "osm" false Scenario.start).1
  = Ok (CList [Some (mkPoint "a1" 1 2); Some (mkPoint "a3" 1 2);
               Some (mkPoint "a5" 1 2)])
  /\ (get_coordinates Scenario.west_geocoder Scenario.geo
        (AddrList ["w1"; "w2"]) "osm" true Scenario.start).1
     = Ok (CList [Some (mkPoint "w1" (-122) 37); Some (mkPoint "w2" (-122) 37)]).
Proof.
  split.
  - refine (proj1 (proj2 (proj2
      (get_coordinates_return_convention Scenario.geocoder Scenario.geo
         (AddrList Scenario.five) "osm" Scenario.osm_method false Scenario.start
         [Some (mkPoint "a1" 1 2); Some (mkPoint "a3" 1 2); Some (mkPoint "a5" 1 2)]
         _ _))) _).
    + reflexivity.
    + assert (answered (calls Scenario.osm_method (batch (AddrList Scenario.five))
                          (world Scenario.start)).1
              = [("a1", Scenario.agreeing); ("a3", Scenario.agreeing);
                 ("a5", Scenario.agreeing)]%string) as ->
        by (vm_compute; reflexivity).
      repeat (constructor; [unfold reconciled; vm_compute; reflexivity |]).
      constructor.
    + simpl. lia.
  - refine (proj1 (proj2 (proj2
      (get_coordinates_return_convention Scenario.west_geocoder Scenario.geo
         (AddrList ["w1"; "w2"]) "osm" (fun addr calls => (Some Scenario.west, S calls))
         true Scenario.start
         [Some (mkPoint "w1" (-122) 37); Some (mkPoint "w2" (-122) 37)]
         _ _))) _).
    + reflexivity.
    + assert (answered (calls (fun addr calls => (Some Scenario.west, S calls))
                          (batch (AddrList ["w1"; "w2"]))
                          (world Scenario.start)).1
              = [("w1", Scenario.west); ("w2", Scenario.west)]%string) as ->
        by (vm_compute; reflexivity).
      repeat (constructor; [unfold reconciled; vm_compute; reflexivity |]).
      constructor.
    + simpl. lia.
Defined.

(** C1, at the input of the spec's own example: five addresses, the provider
    raising for the second and the fourth, null values kept. The two failed
    calls leave no position behind: three results come back where the claim
    has five with [None] at the second and fourth position. *)
Theorem get_coordinates_failed_calls_leave_no_position :
  (calls Scenario.osm_method Scenario.five 0%nat).1.*2
  = [Some Scenario.agreeing; None; Some Scenario.agreeing; None;
     Some Scenario.agreeing]
  /\ (get_coordinates Scenario.geocoder Scenario.geo (AddrList Scenario.five)
        "osm" true Scenario.start).1
     = Ok (CList [Some (mkPoint "a1" 1 2); Some (mkPoint "a3" 1 2);
                  Some (mkPoint "a5" 1 2)]).
Proof. split; vm_compute; reflexivity. Qed.

(** C6, as the code has it: when both candidates are present, the
    reconciler raises in two ways. Under a tolerance that [isclose] accepts,
    if [isclose] answers [False] on at least one axis, it raises the
    [ValueError] whose message shows both points, each carrying the address.
    Under a negative tolerance, which the constructor lets in, [isclose]
    itself raises its [ValueError], which carries neither point. Nothing
    catches either error, so [get_coordinates] leaves with it, for a single
    address and at any position of a batch. *)
Theorem disagreement_raises {World}
    (geocoder : string -> option (provider World)) (self : Geo)
    (addr : string) (query_result : Response) (w o : Point) (error : exn) :
  get_wkt addr query_result = Ok (Some w) ->
  get_osm addr query_result = Ok (Some o) ->
  ((Py.isclose (x w) (x o) (rel_tol self) = Ok false
    \/ Py.isclose (y w) (y o) (rel_tol self) = Ok false)
   /\ error = ValueError_not_equal w o)
  \/ ((rel_tol self <? 0)%float = true /\ error = ValueError_tolerances) ->
  get_lat_and_lng self addr query_result = Raise error
  /\ address w = addr /\ address o = addr
  /\ (forall method_name method leave s w1,
        geocoder method_name = Some method ->
        method addr (world s) = (Some query_result, w1) ->
        get_coordinates geocoder self (AddrStr addr) method_name leave s
        = (Raise error, {| world := w1; warnings := warnings s |}))
  /\ (forall method_name method leave s before after result s1 w1,
        geocoder method_name = Some method ->
        query_all self method method_name before [] s = (Ok result, s1) ->
        method addr (world s1) = (Some query_result, w1) ->
        get_coordinates geocoder self (AddrList (before ++ addr :: after))
          method_name leave s
        = (Raise error, {| world := w1; warnings := warnings s1 |})).
Proof.
  intros Hw Ho Hcase.
  assert (get_lat_and_lng self addr query_result = Raise error) as Hraise.
  { destruct Hcase as [[Hfar ->] | [Htol ->]].
    - unfold get_lat_and_lng. rewrite Hw, Ho. simpl.
      destruct Hfar as [-> | Hy]; [done |].
      destruct (isclose_returns (x w) (x o) _ (isclose_tolerance _ _ _ _ Hy))
        as [[] ->]; simpl; [by rewrite Hy | done].
    - by eapply negative_tolerance_surfaces_on_comparison. }
  split_and!; [done | by eapply get_wkt_address | by eapply get_osm_address | |].
  - intros method_name method leave s w1 Hmethod Hcall.
    rewrite (get_coordinates_run _ _ _ _ _ _ _ Hmethod). simpl batch.
    by rewrite (query_all_raises _ _ _ _ _ _ _ _ _ _ Hcall Hraise).
  - intros method_name method leave s before after result s1 w1 Hmethod Hbefore Hcall.
    rewrite (get_coordinates_run _ _ _ _ _ _ _ Hmethod). simpl batch.
    rewrite query_all_app, run_bind, Hbefore.
    by rewrite (query_all_raises _ _ _ _ _ _ _ _ _ _ Hcall Hraise).
Qed.

Lemma disagreement_raises_witness :
  get_lat_and_lng Scenario.geo "c" Scenario.disagreeing
  = Raise (ValueError_not_equal (mkPoint "c" 1 2) (mkPoint "c" 1 3))
  /\ (get_coordinates Scenario.geocoder Scenario.geo (AddrList ["a1"; "c"; "a3"])
        "osm" true Scenario.start).1
     = Raise (ValueError_not_equal (mkPoint "c" 1 2) (mkPoint "c" 1 3))
  /\ (get_coordinates Scenario.geocoder Scenario.negative (AddrStr "c")
        "osm" false Scenario.start).1
     = Raise ValueError_tolerances.
Proof.
  split_and!.
  - refine (proj1 (disagreement_raises Scenario.geocoder Scenario.geo "c"
                     Scenario.disagreeing (mkPoint "c" 1 2) (mkPoint "c" 1 3)
                     _ _ _ _)); [vm_compute; reflexivity .. |].
    left. split; [right; vm_compute; reflexivity | reflexivity].
  - destruct (disagreement_raises Scenario.geocoder Scenario.geo "c"
                Scenario.disagreeing (mkPoint "c" 1 2) (mkPoint "c" 1 3)
                (ValueError_not_equal (mkPoint "c" 1 2) (mkPoint "c" 1 3)))
      as (_ & _ & _ & _ & Hbatch); [vm_compute; reflexivity .. | |].
    { left. split; [right; vm_compute; reflexivity | reflexivity]. }
    pose proof (Hbatch "osm"%string Scenario.osm_method true Scenario.start
                  ["a1"%string] ["a3"%string]
                  [Some (mkPoint "a1" 1 2)]
                  {| world := 1%nat; warnings := [] |} 2%nat) as Hrun.
    simpl app in Hrun.
    rewrite Hrun; [reflexivity | vm_compute; reflexivity ..].
  - destruct (disagreement_raises Scenario.geocoder Scenario.negative "c"
                Scenario.disagreeing (mkPoint "c" 1 2) (mkPoint "c" 1 3)
                ValueError_tolerances)
      as (_ & _ & _ & Hsingle & _); [vm_compute; reflexivity .. | |].
    { right. split; vm_compute; reflexivity. }
    rewrite (Hsingle "osm"%string Scenario.osm_method false Scenario.start 1%nat);
      [reflexivity | vm_compute; reflexivity ..].
Defined.

(** C6 fails as stated: under the tolerance [-1], which [__init__] accepts,
    the candidates [(1, 2)] and [(1, 3)] are far apart on the second axis,
    and what is raised is the [ValueError] of [isclose], which carries
    neither candidate nor the address, not the disagreement. *)
Lemma negative_tolerance_hides_the_disagreement :
  init default_allowed_methods (-1) = Ok Scenario.negative
  /\ get_wkt "c" Scenario.disagreeing = Ok (Some (mkPoint "c" 1 2))
  /\ get_osm "c" Scenario.disagreeing = Ok (Some (mkPoint "c" 1 3))
  /\ Py.rel_close 2 3 (rel_tol Scenario.negative) = false
  /\ get_lat_and_lng Scenario.negative "c" Scenario.disagreeing
     = Raise ValueError_tolerances
  /\ get_lat_and_lng Scenario.negative "c" Scenario.disagreeing
     <> Raise (ValueError_not_equal (mkPoint "c" 1 2) (mkPoint "c" 1 3)).
Proof. split_and!; vm_compute; (reflexivity || discriminate). Qed.

(** ** The warnings log *)
Section Log.
Context {World : Type}.
Variable geocoder : string -> option (provider World).
Variable self : Geo.
Implicit Types (method : provider World) (s : state World).

(** Nothing ever removes a warning. *)
Lemma query_log method method_name addr result s r s' :
  query self method method_name addr result s = (r, s') ->
  warnings s `prefix_of` warnings s'.
Proof.
  destruct (method addr (world s)) as [[res|] w] eqn:Hcall.
  - rewrite (query_answered _ _ _ _ _ _ _ _ Hcall). by intros [= _ <-].
  - rewrite (query_raised _ _ _ _ _ _ _ Hcall). intros [= _ <-]. simpl.
    by apply prefix_app_r.
Qed.

Lemma query_all_log method method_name l result s r s' :
  query_all self method method_name l result s = (r, s') ->
  warnings s `prefix_of` warnings s'.
Proof.
  revert result s. induction l as [|addr rest IH]; intros result s.
  - by intros [= _ <-].
  - simpl. rewrite run_bind.
    destruct (query _ _ _ _ _ _) as [[out|e] s1] eqn:Hquery;
      apply query_log in Hquery.
    + intros Hrest%IH. by etrans.
    + by intros [= _ <-].
Qed.

Lemma get_coordinates_log addrs method_name leave s r s' :
  get_coordinates geocoder self addrs method_name leave s = (r, s') ->
  warnings s `prefix_of` warnings s'.
Proof.
  destruct (geocoder method_name) as [method|] eqn:Hmethod.
  - rewrite (get_coordinates_run _ _ _ _ _ _ _ Hmethod).
    destruct (query_all _ _ _ _ _ _) as [[out|e] s1] eqn:Hloop;
      apply query_all_log in Hloop; by intros [= _ <-].
  - unfold get_coordinates. rewrite Hmethod. by intros [= _ <-].
Qed.

End Log.

(** ** Warning messages *)
Section Messages.

Lemma list_ascii_of_string_app (s1 s2 : string) :
  list_ascii_of_string (s1 +:+ s2)
  = list_ascii_of_string s1 ++ list_ascii_of_string s2.
Proof. induction s1 as [|c s1 IH]; [done |]. cbn. by rewrite <- IH. Qed.

Lemma list_ascii_of_string_inj (s1 s2 : string) :
  list_ascii_of_string s1 = list_ascii_of_string s2 -> s1 = s2.
Proof.
  intros H. apply (f_equal string_of_list_ascii) in H.
  by rewrite !string_of_list_ascii_of_string in H.
Qed.



End Messages.

(** ** Aggregating over providers *)
Section Aggregate.
Context {World : Type}.
Variable geocoder : string -> option (provider World).
Variable self : Geo.
Implicit Types (s : state World) (dfs : list Pandas.DataFrame).

(** A rejected provider: one warning, no row, and on to the next. *)
Lemma visit_rejected addrs method_name dfs s :
  method_name ∉ allowed_methods self ->
  visit geocoder self addrs method_name dfs s
  = (Ok dfs, {| world := world s;
                warnings := warnings s ++ [not_found method_name] |}).
Proof. intros Hout. unfold visit. by rewrite bool_decide_eq_true_2. Qed.

(** An allowed provider. *)
Lemma visit_allowed addrs method_name dfs s :
  method_name ∈ allowed_methods self ->
  visit geocoder self addrs method_name dfs s
  = match get_coordinates geocoder self addrs method_name true s with
    | (Ok current_res, s1) =>
        if truthy_coordinates current_res then
          (match contribution addrs method_name current_res with
           | Ok df => Ok (dfs ++ [df])
           | Raise e => Raise e
           end, s1)
        else (Ok dfs, s1)
    | (Raise e, s1) => (Raise e, s1)
    end.
Proof.
  intros Hin. unfold visit.
  rewrite bool_decide_eq_false_2 by (by intros []).
  rewrite run_bind.
  destruct (get_coordinates _ _ _ _ _ _) as [[current_res|e] s1]; [| done].
  destruct (truthy_coordinates current_res); [| done].
  rewrite run_bind, run_lift.
  by destruct (contribution _ _ _).
Qed.

Lemma visit_log addrs method_name dfs s r s' :
  visit geocoder self addrs method_name dfs s = (r, s') ->
  warnings s `prefix_of` warnings s'.
Proof.
  destruct (decide (method_name ∈ allowed_methods self)) as [Hin|Hout].
  - rewrite (visit_allowed _ _ _ _ Hin).
    destruct (get_coordinates _ _ _ _ _ _) as [[current_res|e] s1] eqn:Hget;
      apply get_coordinates_log in Hget; [| by intros [= _ <-]].
    destruct (truthy_coordinates current_res); by intros [= _ <-].
  - rewrite (visit_rejected _ _ _ _ Hout). intros [= _ <-]. simpl.
    by apply prefix_app_r.
Qed.

Lemma visit_all_log addrs names dfs s r s' :
  visit_all geocoder self addrs names dfs s = (r, s') ->
  warnings s `prefix_of` warnings s'.
Proof.
  revert dfs s. induction names as [|name rest IH]; intros dfs s.
  - by intros [= _ <-].
  - simpl. rewrite run_bind.
    destruct (visit _ _ _ _ _ _) as [[dfs1|e] s1] eqn:Hvisit;
      apply visit_log in Hvisit.
    + intros Hrest%IH. by etrans.
    + by intros [= _ <-].
Qed.

Lemma visit_all_app addrs names1 names2 dfs s :
  visit_all geocoder self addrs (names1 ++ names2) dfs s
  = (visit_all geocoder self addrs names1 dfs
       ≫= visit_all geocoder self addrs names2) s.
Proof.
  revert dfs s. induction names1 as [|name rest IH]; intros dfs s; [done |].
  simpl. rewrite !run_bind.
  destruct (visit _ _ _ _ _ _) as [[dfs1|e] s1]; [| done].
  by rewrite IH, run_bind.
Qed.


(** The frame of a provider: the input addresses as columns and one row
    labelled by the provider, with one cell per column. *)
Lemma contribution_frame addrs method_name current_res df :
  contribution addrs method_name current_res = Ok df ->
  exists l cells,
    addrs = AddrList l /\ Pandas.columns df = l
    /\ Pandas.rows df = [(method_name, cells)] /\ length cells = length l.
Proof.
  unfold contribution. intros H. invert_Ok H.
  destruct addrs as [|l]; [done |]. injection H as <-.
  eexists l, _. split_and!; [done.. |]. by rewrite length_map.
Qed.

(** What a walk adds to the list of frames. *)
Lemma visit_all_frames addrs names dfs s dfs' s' :
  visit_all geocoder self addrs names dfs s = (Ok dfs', s') ->
  exists new,
    dfs' = dfs ++ new
    /\ Forall (fun df => exists l name cells,
                 addrs = AddrList l /\ Pandas.columns df = l
                 /\ Pandas.rows df = [(name, cells)]
                 /\ length cells = length l
                 /\ name ∈ names /\ name ∈ allowed_methods self) new.
Proof.
  revert dfs s. induction names as [|n rest IH]; intros dfs s.
  - intros [= <- _]. exists []. by rewrite app_nil_r.
  - simpl. intros (dfs1 & s1 & Hvisit & Hrest)%run_bind_Ok.
    apply IH in Hrest as (new & -> & Hnew).
    assert (Forall (fun df => exists l name cells,
                 addrs = AddrList l /\ Pandas.columns df = l
                 /\ Pandas.rows df = [(name, cells)]
                 /\ length cells = length l
                 /\ name ∈ n :: rest /\ name ∈ allowed_methods self) new)
      as Hnew'.
    { eapply Forall_impl; [exact Hnew |]. simpl.
      intros df (l & name & cells & ? & ? & ? & ? & ? & ?).
      exists l, name, cells. split_and!; try done. by apply elem_of_cons; right. }
    destruct (decide (n ∈ allowed_methods self)) as [Hin|Hout].
    + rewrite (visit_allowed _ _ _ _ Hin) in Hvisit.
      destruct (get_coordinates _ _ _ _ _ _) as [[current_res|e] s2]; [| done].
      destruct (truthy_coordinates current_res).
      * destruct (contribution _ _ _) as [df|e] eqn:Hdf; [| done].
        injection Hvisit as <- _.
        exists (df :: new). split; [by rewrite <- app_assoc |].
        constructor; [| done].
        apply contribution_frame in Hdf as (l & cells & ? & ? & ? & ?).
        exists l, n, cells. split_and!; try done. by apply elem_of_cons; left.
      * injection Hvisit as <- _. by exists new.
    + rewrite (visit_rejected _ _ _ _ Hout) in Hvisit.
      injection Hvisit as <- _. by exists new.
Qed.

End Aggregate.

(** ** A single address handed to the aggregator *)
Section SingleAddress.
Context {World : Type}.
Variable geocoder : string -> option (provider World).
Variable self : Geo.
Implicit Types (s : state World) (dfs : list Pandas.DataFrame).

(** One address gives [None] or one point for that very address. *)
Lemma get_coordinates_str a method_name leave s c s' :
  get_coordinates geocoder self (AddrStr a) method_name leave s = (Ok c, s') ->
  c = CNone \/ exists p, c = CPoint p /\ address p = a.
Proof.
  destruct (geocoder method_name) as [method|] eqn:Hmethod;
    [| unfold get_coordinates; by rewrite Hmethod].
  rewrite (get_coordinates_run _ _ _ _ _ _ _ Hmethod). simpl batch.
  rewrite query_all_one.
  destruct (method a (world s)) as [[res|] w] eqn:Hcall.
  - rewrite (query_answered _ _ _ _ _ _ _ _ Hcall).
    destruct (get_lat_and_lng self a res) as [[p|]|e] eqn:Hp; [| | done].
    + apply get_lat_and_lng_address in Hp.
      destruct leave; intros [= <- _]; right; by exists p.
    + destruct leave; intros [= <- _]; by left.
  - rewrite (query_raised _ _ _ _ _ _ _ Hcall).
    destruct leave; intros [= <- _]; by left.
Qed.

(** Zipping the characters of a non-empty address with the fields of the
    point pairs the first character with the point's address, a non-empty
    [str], on which [v.x] fails. *)
Lemma contribution_str_raises a method_name p :
  Py.truthy_str a = true -> address p = a ->
  contribution (AddrStr a) method_name (CPoint p)
  = Raise (AttributeError "str" "x").
Proof.
  intros Ha Hp. unfold contribution. simpl. rewrite Hp.
  destruct a as [|c a']; [done |]. reflexivity.
Qed.

End SingleAddress.

(** C10: with a single address string of length greater than one, as soon
    as an allowed provider yields a non-null result the call raises the
    [AttributeError] of reading [x] on a [str]; and whatever the providers
    do, the call never returns a table. *)
Theorem single_address_string_raises {World}
    (geocoder : string -> option (provider World)) (self : Geo)
    (a : string) (method_name_vec : option method_names) :
  (1 < String.length a)%nat ->
  (forall before method_name after s dfs s1 p s2,
     requested self method_name_vec = before ++ method_name :: after ->
     visit_all geocoder self (AddrStr a) before [] s = (Ok dfs, s1) ->
     method_name ∈ allowed_methods self ->
     get_coordinates geocoder self (AddrStr a) method_name true s1
       = (Ok (CPoint p), s2) ->
     get_multiple_method_coordinates geocoder self (AddrStr a) method_name_vec s
       = (Raise (AttributeError "str" "x"), s2))
  /\ (forall s df s',
        get_multiple_method_coordinates geocoder self (AddrStr a) method_name_vec s
          <> (Ok (Some df), s')).
Proof.
  intros Hlen. split.
  - intros before method_name after s dfs s1 p s2 Hreq Hbefore Hin Hget.
    unfold get_multiple_method_coordinates.
    rewrite run_bind, Hreq, visit_all_app, run_bind, Hbefore. simpl.
    rewrite run_bind, (visit_allowed _ _ _ _ _ _ Hin), Hget. simpl.
    apply get_coordinates_str in Hget as [[=] | (p' & [= <-] & Hp)].
    rewrite contribution_str_raises; [done | | done].
    destruct a; [simpl in Hlen; lia | done].
  - intros s df s' Hrun. unfold get_multiple_method_coordinates in Hrun.
    apply run_bind_Ok in Hrun as (dfs & s1 & Hwalk & Hend).
    apply visit_all_frames in Hwalk as (new & -> & Hnew).
    destruct new as [|df' new]; [done |].
    by apply Forall_cons_1 in Hnew as [(l & ? & ? & [=] & _) _].
Qed.

Lemma single_address_string_raises_witness :
  (get_multiple_method_coordinates Scenario.geocoder Scenario.geo
     (AddrStr "a1") (Some (NamesList ["zzz"; "osm"; "bing"])) Scenario.start).1
  = Raise (AttributeError "str" "x").
Proof.
  destruct (single_address_string_raises Scenario.geocoder Scenario.geo
              "a1" (Some (NamesList ["zzz"; "osm"; "bing"])))
    as [Hraise _]; [simpl; lia |].
  rewrite (Hraise ["zzz"] "osm" ["bing"] Scenario.start []
             {| world := 0%nat; warnings := [not_found "zzz"] |}
             (mkPoint "a1" 1 2)
             {| world := 1%nat; warnings := [not_found "zzz"] |})%string;
    [reflexivity | vm_compute; reflexivity | vm_compute; reflexivity | | vm_compute; reflexivity].
  apply list_elem_of_In. vm_compute. tauto.
Defined.

(** ** The assembled table *)
Section Table.
Implicit Types (dfs : list Pandas.DataFrame) (row : string * list Pandas.cell).

Lemma concat_rows dfs row :
  row ∈ Pandas.rows (Pandas.concat dfs) <->
  exists df, df ∈ dfs /\ row ∈ Pandas.rows df.
Proof.
  unfold Pandas.concat. simpl. rewrite list_elem_of_join. split.
  - intros (rs & Hrow & (df & -> & Hdf)%list_elem_of_fmap). eauto.
  - intros (df & Hdf & Hrow). exists (Pandas.rows df).
    split; [done |]. by apply list_elem_of_fmap_2.
Qed.

Lemma dropna_all_rows (df : Pandas.DataFrame) row :
  row ∈ Pandas.rows (Pandas.dropna_all df) <->
  row ∈ Pandas.rows df /\ Pandas.all_null row.2 = false.
Proof.
  unfold Pandas.dropna_all. simpl.
  rewrite list_elem_of_In, filter_In, <- list_elem_of_In.
  by rewrite negb_true_iff.
Qed.


Lemma concat_columns dfs (l : list string) :
  dfs <> [] -> Forall (fun df => Pandas.columns df = l) dfs ->
  Pandas.columns (Pandas.concat dfs) = l.
Proof. destruct dfs as [|df dfs]; [done |]. by intros _ [? _]%Forall_cons_1. Qed.

End Table.





(** C3, as the code has it: [dropna(how='all')] works on rows only. The
    returned table holds exactly the assembled rows that are not entirely
    null, so every all-null row is dropped; no column is ever dropped: the
    columns are the input addresses, all of them, and every row keeps one
    cell per address. *)
Theorem all_null_rows_dropped_columns_kept {World}
    (geocoder : string -> option (provider World)) (self : Geo)
    (l : list string) (method_name_vec : option method_names)
    (s s' : state World) (df : Pandas.DataFrame) :
  get_multiple_method_coordinates geocoder self (AddrList l) method_name_vec s
    = (Ok (Some df), s') ->
  exists assembled,
    visit_all geocoder self (AddrList l) (requested self method_name_vec) [] s
      = (Ok assembled, s')
    /\ (forall row,
          row ∈ Pandas.rows df <->
          row ∈ Pandas.rows (Pandas.concat assembled)
          /\ Pandas.all_null row.2 = false)
    /\ Pandas.columns df = l
    /\ Forall (fun row => length row.2 = length l) (Pandas.rows df).
Proof.
  intros Hrun. unfold get_multiple_method_coordinates in Hrun.
  apply run_bind_Ok in Hrun as (assembled & s1 & Hwalk & Hend).
  case_bool_decide as Hrows; [| done]. injection Hend as <- <-.
  exists assembled. split; [done |].
  apply visit_all_frames in Hwalk as (new & -> & Hnew).
  change ([] ++ new) with new in *.
  split_and!.
  - intros row. apply dropna_all_rows.
  - apply concat_columns; [done |].
    eapply Forall_impl; [exact Hnew |]. simpl.
    by intros df (l' & ? & ? & [= <-] & ? & _).
  - apply Forall_forall. intros row [Hrow _]%dropna_all_rows.
    apply concat_rows in Hrow as (df & Hdf & Hrow).
    rewrite Forall_forall in Hnew.
    destruct (Hnew df Hdf) as (l' & name & cells & [= <-] & _ & Hrows' & Hlen & _).
    rewrite Hrows' in Hrow. by apply list_elem_of_singleton in Hrow as ->.
Qed.

Lemma all_null_rows_dropped_columns_kept_witness :
  exists assembled,
    visit_all Scenario.geocoder Scenario.geo (AddrList ["a1"; "b"])
      ["osm"; "bing"]%string [] Scenario.start
      = (Ok assembled, {| world := 4%nat; warnings := [] |})
    /\ Pandas.rows (Pandas.concat assembled)
       = [("osm", [Some [1%float; 2%float]; None]); ("bing", [None; None])]%string.
Proof.
  destruct (all_null_rows_dropped_columns_kept Scenario.geocoder Scenario.geo
              ["a1"; "b"]%string (Some (NamesList ["osm"; "bing"]))
              Scenario.start {| world := 4%nat; warnings := [] |}
              {| Pandas.columns := ["a1"; "b"];
                 Pandas.rows := [("osm", [Some [1%float; 2%float]; None])] |})
    as (assembled & Hwalk & _); [vm_compute; reflexivity |].
  exists assembled. split; [exact Hwalk |].
  assert (visit_all Scenario.geocoder Scenario.geo (AddrList ["a1"; "b"])
            ["osm"; "bing"]%string [] Scenario.start
          = (Ok [Pandas.mkDataFrame ["a1"; "b"]
                   [("osm", [Some [1%float; 2%float]; None])];
                 Pandas.mkDataFrame ["a1"; "b"] [("bing", [None; None])]]%string,
             {| world := 4%nat; warnings := [] |})) as Hvalue
    by (vm_compute; reflexivity).
  change (requested Scenario.geo (Some (NamesList ["osm"; "bing"])))%string
    with ["osm"; "bing"]%string in Hwalk.
  rewrite Hvalue in Hwalk. by injection Hwalk as <-.
Defined.

(** C3 fails as stated: two providers over the addresses [a1] and [b]
    assemble a table with one all-null row, that of [bing], and one all-null
    column, that of [b]. The row is gone from the returned table; the
    column is still there, every cell of it null. *)
Lemma all_null_column_is_kept :
  let table := {| Pandas.columns := ["a1"; "b"];
                  Pandas.rows := [("osm", [Some [1%float; 2%float]; None])] |}%string in
  (get_multiple_method_coordinates Scenario.geocoder Scenario.geo
     (AddrList ["a1"; "b"]) (Some (NamesList ["osm"; "bing"])) Scenario.start).1
  = Ok (Some table)
  /\ Pandas.columns table !! 1%nat = Some "b"%string
  /\ Pandas.column table 1 = [None]
  /\ Pandas.all_null (Pandas.column table 1) = true.
Proof. vm_compute. by split_and!. Qed.



(** * Further properties of the class *)

(** ** The pattern and the two extractions *)

(** X1: [__parse_wtk] returns groups exactly for the texts of the pattern's
    language, and the groups are the two runs of non-space characters. *)
Theorem parse_wtk_matches_pattern (in_str : string) (groups : gmap string string) :
  parse_wtk in_str = Some groups <->
  exists gx gy,
    wkt_pattern_language (list_ascii_of_string in_str)
      (list_ascii_of_string gx) (list_ascii_of_string gy)
    /\ groups = <["x"%string := gx]> (<["y"%string := gy]> ∅).
Proof.
  unfold parse_wtk. split.
  - destruct (wkt_pattern_search in_str) as [[gx gy]|] eqn:Hsearch; [| done].
    intros [= <-]. exists gx, gy. split; [| done].
    by apply wkt_pattern_search_language.
  - intros (gx & gy & Hlang%wkt_pattern_search_language & ->).
    by rewrite Hlang.
Qed.

(** X2: one newline after the closing parenthesis changes nothing: a text
    that matches and does not end in a newline still matches, with the same
    groups, once a newline is appended. *)
Theorem wkt_pattern_search_trailing_newline (in_str gx gy : string) :
  wkt_pattern_search in_str = Some (gx, gy) ->
  (forall t, in_str <> t +:+ String "010"%char EmptyString) ->
  wkt_pattern_search (in_str +:+ String "010"%char EmptyString) = Some (gx, gy).
Proof.
  intros (sep & nl & Htext & Hgx & Hx & Hgsep & Hsep & Hgy & Hy & Hnl)
    %wkt_pattern_search_language Hend.
  apply wkt_pattern_search_language.
  destruct Hnl as [-> | ->].
  - exists sep, ["010"%char]. rewrite list_ascii_of_string_app, Htext.
    split_and!; try done; [| by right].
    by rewrite <- !app_assoc.
  - exfalso. apply (Hend (string_of_list_ascii
      (list_ascii_of_string "POINT(" ++ list_ascii_of_string gx ++ sep
         ++ list_ascii_of_string gy ++ [")"%char]))).
    apply list_ascii_of_string_inj.
    rewrite list_ascii_of_string_app, list_ascii_of_string_of_list_ascii, Htext.
    by rewrite <- !app_assoc.
Qed.

Lemma wkt_pattern_search_trailing_newline_witness :
  wkt_pattern_search ("POINT(1 2)" +:+ String "010"%char EmptyString)
  = Some ("1", "2")%string.
Proof.
  apply (wkt_pattern_search_trailing_newline "POINT(1 2)" "1" "2").
  - vm_compute. reflexivity.
  - intros t Ht. apply (f_equal list_ascii_of_string) in Ht.
    rewrite list_ascii_of_string_app in Ht.
    apply (f_equal (@rev ascii)) in Ht. rewrite rev_app_distr in Ht.
    simpl in Ht. discriminate.
Defined.

(** X3: [__get_wkt] yields no candidate, and raises nothing, when the
    attribute is missing, [None], the empty text, or a text that the pattern
    does not match. *)
Theorem get_wkt_absent (addr : string) (query_result : Response) :
  wkt query_result = Missing
  \/ wkt query_result = Has None
  \/ (exists in_str,
        wkt query_result = Has (Some in_str)
        /\ (in_str = EmptyString \/ wkt_pattern_search in_str = None)) ->
  get_wkt addr query_result = Ok None.
Proof.
  unfold get_wkt, parse_wtk.
  intros [-> | [-> | (in_str & -> & [-> | Hsearch])]]; try done.
  rewrite Hsearch. by destruct (Py.truthy_str in_str).
Qed.

Lemma get_wkt_absent_witness :
  get_wkt "a" Scenario.osm_half = Ok None
  /\ get_wkt "a" Scenario.osm_only = Ok None
  /\ get_wkt "a" {| wkt := Has (Some "POINT(1 2"%string); osm := Missing |}
     = Ok None.
Proof.
  split_and!; apply get_wkt_absent.
  - by left.
  - right. by left.
  - right. right. eexists. split; [reflexivity |]. right.
    vm_compute. reflexivity.
Defined.

(** X4: [__get_osm] yields no candidate, and raises nothing, when the
    attribute is missing or [None], and when the mapping lacks the key [x]
    or the key [y]; the empty mapping is the case where it lacks both. *)
Theorem get_osm_absent (addr : string) (query_result : Response) :
  osm query_result = Missing
  \/ osm query_result = Has None
  \/ (exists d : gmap string Py.pyval,
        osm query_result = Has (Some d)
        /\ (d !! "x"%string = None \/ d !! "y"%string = None)) ->
  get_osm addr query_result = Ok None.
Proof.
  unfold get_osm.
  intros [-> | [-> | (d & -> & Hkey)]]; try done.
  case_bool_decide; [| done].
  destruct Hkey as [-> | ->]; simpl; [done |].
  by rewrite andb_false_r.
Qed.

Lemma get_osm_absent_witness :
  get_osm "a" Scenario.osm_half = Ok None
  /\ get_osm "a" Scenario.nothing = Ok None.
Proof.
  split; apply get_osm_absent; right; right; eexists;
    (split; [reflexivity |]); right; vm_compute; reflexivity.
Defined.

(** X5: a structured mapping whose [x] is a non-empty text that [float()]
    cannot read raises that [ValueError], and the reconciler passes it on
    whenever the WKT extraction itself did not raise: the candidate is not
    treated as absent. *)
Theorem get_osm_unparseable_raises (self : Geo) (addr : string)
    (query_result : Response) (d : gmap string Py.pyval) (tx : string)
    (vy : Py.pyval) :
  osm query_result = Has (Some d) ->
  d !! "x"%string = Some (Py.VStr tx) ->
  d !! "y"%string = Some vy ->
  Py.truthy_str tx = true -> Py.truthy vy = true ->
  Py.float_of_str tx = None ->
  get_osm addr query_result = Raise (ValueError_float tx)
  /\ (forall w, get_wkt addr query_result = Ok w ->
        get_lat_and_lng self addr query_result = Raise (ValueError_float tx)).
Proof.
  intros Hattr Hx Hy Htx Hvy Hbad.
  assert (get_osm addr query_result = Raise (ValueError_float tx)) as Hraise.
  { unfold get_osm. rewrite Hattr, Hx, Hy. simpl.
    rewrite bool_decide_eq_true_2.
    - by rewrite Htx, Hvy, Hbad.
    - intros ->. by rewrite lookup_empty in Hx. }
  split; [done |].
  intros w Hw. unfold get_lat_and_lng. by rewrite Hw, Hraise.
Qed.

Lemma get_osm_unparseable_raises_witness :
  get_lat_and_lng Scenario.geo "a" Scenario.osm_text
  = Raise (ValueError_float "north").
Proof.
  refine (proj2 (get_osm_unparseable_raises Scenario.geo "a" Scenario.osm_text
                   (<["x" := Py.VStr "north"]> (<["y" := Py.VInt 2]> ∅))
                   "north" (Py.VInt 2) _ _ _ _ _ _) None _);
    vm_compute; reflexivity.
Defined.

(** ** The reconciler *)

(** X6: the reconciler never invents a point. What it returns is the WKT
    candidate whenever there is one, the structured candidate only when
    there is no WKT candidate, and [None] only when there is neither. *)
Theorem get_lat_and_lng_returns_a_candidate (self : Geo) (addr : string)
    (query_result : Response) (r : option Point) :
  get_lat_and_lng self addr query_result = Ok r ->
  (exists w, get_wkt addr query_result = Ok (Some w) /\ r = Some w)
  \/ (get_wkt addr query_result = Ok None /\ get_osm addr query_result = Ok r).
Proof.
  unfold get_lat_and_lng. intros H. invert_Ok H.
  destruct a as [w|]; [left | right].
  - exists w. split; [done |].
    destruct a0 as [o|]; [| by simplify_eq].
    invert_Ok H. destruct (_ && _); by simplify_eq.
  - by simplify_eq.
Qed.

Lemma get_lat_and_lng_returns_a_candidate_witness :
  (exists w, get_wkt "a" Scenario.nearly = Ok (Some w)
             /\ Some (mkPoint "a" 1 2) = Some w)
  \/ (get_wkt "a" Scenario.nearly = Ok None
      /\ get_osm "a" Scenario.nearly = Ok (Some (mkPoint "a" 1 2))).
Proof.
  apply (get_lat_and_lng_returns_a_candidate Scenario.geo).
  vm_compute. reflexivity.
Defined.

(** X7: [__init__] lets a negative tolerance in, and it comes out here:
    under a negative tolerance every response with both candidates raises
    the [ValueError] of [isclose], whatever the coordinates, while a
    response with at most one candidate is reconciled as usual. *)
Theorem negative_tolerance_behaviour (self : Geo) (addr : string)
    (query_result : Response) (w o : option Point) :
  (rel_tol self <? 0)%float = true ->
  get_wkt addr query_result = Ok w ->
  get_osm addr query_result = Ok o ->
  get_lat_and_lng self addr query_result =
    match w, o with
    | Some _, Some _ => Raise ValueError_tolerances
    | Some p, None => Ok (Some p)
    | None, _ => Ok o
    end.
Proof.
  intros Htol Hw Ho. destruct w as [pw|], o as [po|];
    try (unfold get_lat_and_lng; by rewrite Hw, Ho).
  by eapply negative_tolerance_surfaces_on_comparison.
Qed.

Lemma negative_tolerance_behaviour_witness :
  get_lat_and_lng Scenario.negative "a" Scenario.agreeing
  = Raise ValueError_tolerances.
Proof.
  apply (negative_tolerance_behaviour Scenario.negative "a" Scenario.agreeing
           (Some (mkPoint "a" 1 2)) (Some (mkPoint "a" 1 2)));
    vm_compute; reflexivity.
Defined.

(** X8: candidates with equal coordinates are reconciled under every
    tolerance that is not negative, zero included, and even when the equal
    coordinates are infinite: [isclose] answers on equality before it looks
    at the tolerance. *)
Theorem equal_candidates_reconcile (self : Geo) (addr : string)
    (query_result : Response) (w o : Point) :
  (rel_tol self <? 0)%float = false ->
  get_wkt addr query_result = Ok (Some w) ->
  get_osm addr query_result = Ok (Some o) ->
  (x w =? x o)%float = true -> (y w =? y o)%float = true ->
  get_lat_and_lng self addr query_result = Ok (Some w).
Proof.
  intros Htol Hw Ho Hx Hy. unfold get_lat_and_lng. rewrite Hw, Ho. simpl.
  unfold Py.isclose. by rewrite Htol, Hx, Hy.
Qed.

Lemma equal_candidates_reconcile_witness :
  get_lat_and_lng {| allowed_methods := []; rel_tol := 0 |} "a" Scenario.agreeing
  = Ok (Some (mkPoint "a" 1 2)).
Proof.
  apply (equal_candidates_reconcile {| allowed_methods := []; rel_tol := 0 |}
           "a" Scenario.agreeing (mkPoint "a" 1 2) (mkPoint "a" 1 2));
    vm_compute; reflexivity.
Defined.

(** ** Dispatching one provider *)

(** What the loop returns, once the call has returned. *)
Lemma return_convention_inv (results : list (option Point)) (c : coordinates) :
  return_convention results = c ->
  match c with
  | CNone => results = [] \/ results = [None]
  | CPoint p => results = [Some p]
  | CList l => results = l /\ (1 < length l)%nat
  end.
Proof.
  unfold return_convention. intros <-.
  destruct (1 <? length results)%nat eqn:Hlen.
  - by apply Nat.ltb_lt in Hlen.
  - apply Nat.ltb_ge in Hlen.
    destruct results as [|[p|] [|r results]]; simpl in *; auto; lia.
Qed.

(** Where the returned points come from. *)
Lemma get_coordinates_order {World}
    (geocoder : string -> option (provider World)) (self : Geo)
    (addrs : addresses) (method_name : string) (leave : bool)
    (s s' : state World) (c : coordinates) :
  get_coordinates geocoder self addrs method_name leave s = (Ok c, s') ->
  match c with
  | CNone => True
  | CPoint p => address p ∈ batch addrs
  | CList l => omap (fmap address) l `sublist_of` batch addrs
  end.
Proof.
  intros (method & ps & Hmethod & Hps & Hc)%get_coordinates_inv.
  assert (omap (fmap address)
            (if leave then ps else List.filter truthy_point ps)
          `sublist_of` batch addrs) as Horder.
  { assert (omap (fmap address)
              (if leave then ps else List.filter truthy_point ps)
            = omap (fmap address) ps) as ->
      by (destruct leave; [done | apply omap_filter_truthy_point]).
    etrans; [by eapply reconciled_addresses |].
    etrans; [apply answered_sublist |].
    by rewrite calls_addresses. }
  symmetry in Hc. apply return_convention_inv in Hc.
  destruct c as [|p|l]; [done | |].
  - rewrite Hc in Horder. eapply elem_of_sublist; [| exact Horder].
    simpl. apply elem_of_cons. by left.
  - destruct Hc as [Hc _]. by rewrite Hc in Horder.
Qed.

(** X9: every point that [get_coordinates] returns belongs to an address of
    the call, and in a returned list the points stand in the order of the
    input addresses. *)
Theorem get_coordinates_points_belong {World}
    (geocoder : string -> option (provider World)) (self : Geo)
    (addrs : addresses) (method_name : string) (leave : bool)
    (s s' : state World) (c : coordinates) :
  get_coordinates geocoder self addrs method_name leave s = (Ok c, s') ->
  match c with
  | CNone => True
  | CPoint p => address p ∈ batch addrs
  | CList l => omap (fmap address) l `sublist_of` batch addrs
  end.
Proof. apply get_coordinates_order. Qed.

Lemma get_coordinates_points_belong_witness :
  omap (fmap address)
    [Some (mkPoint "a1" 1 2); Some (mkPoint "a3" 1 2); Some (mkPoint "a5" 1 2)]
  `sublist_of` Scenario.five.
Proof.
  apply (get_coordinates_points_belong Scenario.geocoder Scenario.geo
           (AddrList Scenario.five) "osm" true Scenario.start
           {| world := 5%nat;
              warnings := [could_not_get "osm"; could_not_get "osm"] |}
           (CList [Some (mkPoint "a1" 1 2); Some (mkPoint "a3" 1 2);
                   Some (mkPoint "a5" 1 2)])).
  vm_compute. reflexivity.
Defined.

(** X10: [get_coordinates] never looks at the allow-list. Two instances
    with the same tolerance give the same run, so a method that is not
    allowed is queried all the same on this path. *)
Theorem get_coordinates_ignores_allow_list {World}
    (geocoder : string -> option (provider World)) (self1 self2 : Geo)
    (addrs : addresses) (method_name : string) (leave : bool) (s : state World) :
  rel_tol self1 = rel_tol self2 ->
  get_coordinates geocoder self1 addrs method_name leave s
  = get_coordinates geocoder self2 addrs method_name leave s.
Proof.
  destruct self1 as [allowed1 tol1], self2 as [allowed2 tol2]. simpl.
  intros ->.
  assert (forall (method : provider World) addr result (s0 : state World),
            query {| allowed_methods := allowed1; rel_tol := tol2 |}
              method method_name addr result s0
            = query {| allowed_methods := allowed2; rel_tol := tol2 |}
                method method_name addr result s0) as Hquery by done.
  assert (forall (method : provider World) l result (s0 : state World),
            query_all {| allowed_methods := allowed1; rel_tol := tol2 |}
              method method_name l result s0
            = query_all {| allowed_methods := allowed2; rel_tol := tol2 |}
                method method_name l result s0) as Hloop.
  { intros method l. induction l as [|addr rest IH]; intros result s0; [done |].
    simpl. rewrite !run_bind, Hquery.
    destruct (query _ _ _ _ _ _) as [[out|e] s1]; [apply IH | done]. }
  unfold get_coordinates.
  destruct (geocoder method_name) as [method|]; [| done].
  rewrite !run_bind. destruct addrs as [a|l]; [by rewrite Hquery |].
  by rewrite Hloop.
Qed.

Lemma get_coordinates_ignores_allow_list_witness :
  get_coordinates Scenario.geocoder Scenario.closed (AddrStr "a1") "osm" false
    Scenario.start
  = (Ok (CPoint (mkPoint "a1" 1 2)), {| world := 1%nat; warnings := [] |}).
Proof.
  rewrite <- (get_coordinates_ignores_allow_list Scenario.geocoder
                Scenario.geo Scenario.closed); [| reflexivity].
  vm_compute. reflexivity.
Defined.

(** X11: the effects of a call that returns. Every address of the batch is
    queried once, in order, and the log gains one warning per call that
    raised, each naming the method; nothing else is logged. *)
Theorem get_coordinates_effects {World}
    (geocoder : string -> option (provider World)) (self : Geo)
    (addrs : addresses) (method_name : string) (method : provider World)
    (leave : bool) (s s' : state World) (c : coordinates) :
  geocoder method_name = Some method ->
  get_coordinates geocoder self addrs method_name leave s = (Ok c, s') ->
  world s' = (calls method (batch addrs) (world s)).2
  /\ warnings s'
     = warnings s ++ replicate (failures (calls method (batch addrs) (world s)).1)
                       (could_not_get method_name).
Proof.
  intros Hmethod Hrun.
  assert (Hinv := Hrun). apply get_coordinates_inv in Hinv
    as (method' & ps & Hmethod' & Hps & _).
  assert (method' = method) as -> by congruence.
  rewrite (get_coordinates_run _ _ _ _ _ _ _ Hmethod) in Hrun.
  rewrite (query_all_Ok _ _ _ _ _ _ _ Hps) in Hrun.
  by injection Hrun as _ <-.
Qed.

Lemma get_coordinates_effects_witness :
  world (get_coordinates Scenario.geocoder Scenario.geo (AddrList Scenario.five)
           "osm" true Scenario.start).2 = 5%nat
  /\ warnings (get_coordinates Scenario.geocoder Scenario.geo
                 (AddrList Scenario.five) "osm" true Scenario.start).2
     = [could_not_get "osm"; could_not_get "osm"].
Proof.
  assert (get_coordinates Scenario.geocoder Scenario.geo (AddrList Scenario.five)
            "osm" true Scenario.start
          = (Ok (CList [Some (mkPoint "a1" 1 2); Some (mkPoint "a3" 1 2);
                        Some (mkPoint "a5" 1 2)]),
             {| world := 5%nat;
                warnings := [could_not_get "osm"; could_not_get "osm"] |}))
    as Hrun by (vm_compute; reflexivity).
  destruct (get_coordinates_effects Scenario.geocoder Scenario.geo
              (AddrList Scenario.five) "osm" Scenario.osm_method true
              Scenario.start _ _ eq_refl Hrun) as [Hworld Hlog].
  rewrite Hrun. split; [exact Hworld | exact Hlog].
Defined.

(** X12: with null values kept, a returned list holds one entry per address
    less one per provider call that raised. *)
Theorem kept_results_count {World}
    (geocoder : string -> option (provider World)) (self : Geo)
    (l : list string) (method_name : string) (method : provider World)
    (s s' : state World) (results : list (option Point)) :
  geocoder method_name = Some method ->
  get_coordinates geocoder self (AddrList l) method_name true s
    = (Ok (CList results), s') ->
  (length results + failures (calls method l (world s)).1 = length l)%nat.
Proof.
  intros Hmethod
    (method' & ps & Hmethod' & Hps & Hc)%get_coordinates_inv.
  assert (method' = method) as -> by congruence.
  symmetry in Hc. apply return_convention_inv in Hc as [<- _].
  by eapply results_count.
Qed.

Lemma kept_results_count_witness :
  (3 + failures (calls Scenario.osm_method Scenario.five 0%nat).1 = 5)%nat.
Proof.
  apply (kept_results_count Scenario.geocoder Scenario.geo Scenario.five "osm"
           Scenario.osm_method Scenario.start
           {| world := 5%nat;
              warnings := [could_not_get "osm"; could_not_get "osm"] |}
           [Some (mkPoint "a1" 1 2); Some (mkPoint "a3" 1 2);
            Some (mkPoint "a5" 1 2)]);
    vm_compute; reflexivity.
Defined.

Lemma answered_all (outcomes : list (string * option Response)) :
  failures outcomes = 0%nat -> (answered outcomes).*1 = outcomes.*1.
Proof.
  unfold failures, answered.
  induction outcomes as [|[addr [res|]] rest IH]; simpl; [done | | done].
  intros Hrest. f_equal. by apply IH.
Qed.

(** X13: when no provider call raises, a list returned with null values
    kept is aligned with the input: one entry per address, and the entry of
    an address is [None] or a point of that address. *)
Theorem kept_results_aligned {World}
    (geocoder : string -> option (provider World)) (self : Geo)
    (l : list string) (method_name : string) (method : provider World)
    (s s' : state World) (results : list (option Point)) :
  geocoder method_name = Some method ->
  failures (calls method l (world s)).1 = 0%nat ->
  get_coordinates geocoder self (AddrList l) method_name true s
    = (Ok (CList results), s') ->
  Forall2 (fun addr r => forall p, r = Some p -> address p = addr) l results.
Proof.
  intros Hmethod Hnone
    (method' & ps & Hmethod' & Hps & Hc)%get_coordinates_inv.
  assert (method' = method) as -> by congruence.
  symmetry in Hc. apply return_convention_inv in Hc as [<- _].
  rewrite <- (calls_addresses method l (world s)), <- (answered_all _ Hnone).
  apply Forall2_fmap_l. eapply Forall2_impl; [exact Hps |].
  intros [addr res] r Hr p ->. by apply get_lat_and_lng_address in Hr.
Qed.

Lemma kept_results_aligned_witness :
  Forall2 (fun addr r => forall p, r = Some p -> address p = addr)
    ["a1"; "b"]%string [Some (mkPoint "a1" 1 2); None].
Proof.
  apply (kept_results_aligned Scenario.geocoder Scenario.geo ["a1"; "b"]%string
           "osm" Scenario.osm_method Scenario.start
           {| world := 2%nat; warnings := [] |});
    vm_compute; reflexivity.
Defined.

(** ** Aggregating over providers *)

(** X14: neither public method ever removes or rewrites a warning: whether
    the call returns or raises, the log it leaves extends the log it
    found. *)
Theorem warnings_only_grow {World}
    (geocoder : string -> option (provider World)) (self : Geo)
    (addrs : addresses) (s : state World) :
  (forall method_name leave r s',
     get_coordinates geocoder self addrs method_name leave s = (r, s') ->
     warnings s `prefix_of` warnings s')
  /\ (forall method_name_vec r s',
        get_multiple_method_coordinates geocoder self addrs method_name_vec s
          = (r, s') ->
        warnings s `prefix_of` warnings s').
Proof.
  split.
  - intros method_name leave r s'. apply get_coordinates_log.
  - intros method_name_vec r s'. unfold get_multiple_method_coordinates.
    rewrite run_bind.
    destruct (visit_all _ _ _ _ _ _) as [[dfs|e] s1] eqn:Hwalk;
      apply visit_all_log in Hwalk.
    + by case_bool_decide; intros [= _ <-].
    + by intros [= _ <-].
Qed.

Lemma warnings_only_grow_witness :
  [could_not_get "bing"] `prefix_of`
    warnings (get_multiple_method_coordinates Scenario.geocoder Scenario.geo
                (AddrList ["a1"; "c"]) (Some (NamesList ["zzz"; "osm"]))
                {| world := 0%nat; warnings := [could_not_get "bing"] |}).2.
Proof.
  destruct (warnings_only_grow Scenario.geocoder Scenario.geo
              (AddrList ["a1"; "c"])
              {| world := 0%nat; warnings := [could_not_get "bing"] |})
    as [_ Hmulti].
  eapply Hmulti. apply surjective_pairing.
Defined.

(** A walk over names that are all rejected: one warning each, in order,
    and nothing else. *)
Lemma visit_all_rejected {World}
    (geocoder : string -> option (provider World)) (self : Geo)
    (addrs : addresses) (names : list string)
    (dfs : list Pandas.DataFrame) (s : state World) :
  Forall (fun n => n ∉ allowed_methods self) names ->
  visit_all geocoder self addrs names dfs s
  = (Ok dfs, {| world := world s;
                warnings := warnings s ++ (not_found <$> names) |}).
Proof.
  revert s. induction names as [|n rest IH]; intros s Hout.
  - simpl. rewrite app_nil_r. by destruct s.
  - apply Forall_cons_1 in Hout as [Hn Hrest].
    simpl. rewrite run_bind, (visit_rejected _ _ _ _ _ _ Hn), (IH _ Hrest).
    simpl. by rewrite <- app_assoc.
Qed.

(** X15: when every requested name is outside the allow-list, the
    aggregator returns [None] without a single provider call, and logs one
    warning per requested name, in the order of the request. *)
Theorem all_rejected_returns_none {World}
    (geocoder : string -> option (provider World)) (self : Geo)
    (addrs : addresses) (method_name_vec : option method_names)
    (s : state World) :
  Forall (fun n => n ∉ allowed_methods self) (requested self method_name_vec) ->
  get_multiple_method_coordinates geocoder self addrs method_name_vec s
  = (Ok None,
     {| world := world s;
        warnings := warnings s ++ (not_found <$> requested self method_name_vec) |}).
Proof.
  intros Hout. unfold get_multiple_method_coordinates.
  by rewrite run_bind, (visit_all_rejected _ _ _ _ _ _ Hout).
Qed.

Lemma all_rejected_returns_none_witness :
  get_multiple_method_coordinates Scenario.geocoder Scenario.closed
    (AddrList Scenario.five) (Some (NamesList ["osm"; "bing"])) Scenario.start
  = (Ok None,
     {| world := 0%nat; warnings := [not_found "osm"; not_found "bing"] |}).
Proof.
  apply (all_rejected_returns_none Scenario.geocoder Scenario.closed
           (AddrList Scenario.five) (Some (NamesList ["osm"; "bing"]))
           Scenario.start).
  repeat constructor; apply not_elem_of_nil.
Defined.

Lemma chars_length (s c : string) : c ∈ chars s -> String.length c = 1%nat.
Proof.
  unfold chars. by intros (a & -> & _)%list_elem_of_fmap.
Qed.

(** X16: a method name passed as one [str] is walked character by
    character. When no allowed method has a one-character name, as in the
    default allow-list, every character is rejected: the call returns
    [None], asks no provider, and warns once per character. *)
Theorem method_name_string_is_split {World}
    (geocoder : string -> option (provider World)) (self : Geo)
    (addrs : addresses) (method_name : string) (s : state World) :
  Py.truthy_str method_name = true ->
  Forall (fun n => String.length n <> 1%nat) (allowed_methods self) ->
  get_multiple_method_coordinates geocoder self addrs
    (Some (NamesStr method_name)) s
  = (Ok None,
     {| world := world s;
        warnings := warnings s ++ (not_found <$> chars method_name) |}).
Proof.
  intros Hname Hallowed. unfold get_multiple_method_coordinates.
  simpl. rewrite Hname, run_bind, visit_all_rejected; [done |].
  apply Forall_forall. intros c Hc%chars_length Hin.
  rewrite Forall_forall in Hallowed. by apply (Hallowed c).
Qed.

Lemma method_name_string_is_split_witness :
  get_multiple_method_coordinates Scenario.geocoder Scenario.geo
    (AddrList Scenario.five) (Some (NamesStr "osm")) Scenario.start
  = (Ok None,
     {| world := 0%nat;
        warnings := [not_found "o"; not_found "s"; not_found "m"] |}).
Proof.
  apply (method_name_string_is_split Scenario.geocoder Scenario.geo
           (AddrList Scenario.five) "osm" Scenario.start).
  - reflexivity.
  - repeat constructor; vm_compute; discriminate.
Defined.

(** X17: the aggregator cannot take a single result. Whenever an allowed
    provider leaves [get_coordinates] with one [Point], for a string or for
    a list of addresses (a list of one address, or a longer one thinned by
    calls that raised), the loop body raises the [AttributeError] of reading
    [x] on a [str], provided that no address is the empty text. *)
Theorem single_result_raises {World}
    (geocoder : string -> option (provider World)) (self : Geo)
    (addrs : addresses) (method_name : string)
    (dfs : list Pandas.DataFrame) (s s1 : state World) (p : Point) :
  Forall (fun a => Py.truthy_str a = true) (batch addrs) ->
  method_name ∈ allowed_methods self ->
  get_coordinates geocoder self addrs method_name true s = (Ok (CPoint p), s1) ->
  visit geocoder self addrs method_name dfs s
  = (Raise (AttributeError "str" "x"), s1).
Proof.
  intros Hfull Hin Hget.
  rewrite (visit_allowed _ _ _ _ _ _ Hin), Hget. simpl.
  apply get_coordinates_order in Hget.
  assert (Py.truthy_str (address p) = true) as Hp.
  { rewrite Forall_forall in Hfull. by apply Hfull. }
  assert (exists k ks, iter_addresses addrs = k :: ks) as (k & ks & Hiter).
  { destruct addrs as [a|l]; simpl in *.
    - apply list_elem_of_singleton in Hget as <-.
      destruct (address p) as [|c a']; [done |]. by eexists _, _.
    - destruct l as [|k ks]; [by apply elem_of_nil in Hget | by eexists _, _]. }
  unfold contribution. simpl. rewrite Hiter. simpl. by rewrite Hp.
Qed.

Lemma single_result_raises_witness :
  visit Scenario.geocoder Scenario.geo (AddrList ["a1"; "a2"]) "osm" []
    Scenario.start
  = (Raise (AttributeError "str" "x"),
     {| world := 2%nat; warnings := [could_not_get "osm"] |}).
Proof.
  apply (single_result_raises Scenario.geocoder Scenario.geo
           (AddrList ["a1"; "a2"]) "osm" [] Scenario.start _ (mkPoint "a1" 1 2)).
  - by repeat constructor.
  - apply list_elem_of_In. vm_compute. tauto.
  - vm_compute. reflexivity.
Defined.

(** What one turn of the loop does to the list of frames. *)
Lemma visit_inv {World}
    (geocoder : string -> option (provider World)) (self : Geo)
    (addrs : addresses) (method_name : string)
    (dfs dfs' : list Pandas.DataFrame) (s s' : state World) :
  visit geocoder self addrs method_name dfs s = (Ok dfs', s') ->
  dfs' = dfs
  \/ exists df cells,
       dfs' = dfs ++ [df] /\ Pandas.rows df = [(method_name, cells)].
Proof.
  destruct (decide (method_name ∈ allowed_methods self)) as [Hin|Hout].
  - rewrite (visit_allowed _ _ _ _ _ _ Hin).
    destruct (get_coordinates _ _ _ _ _ _) as [[current_res|e] s1]; [| done].
    destruct (truthy_coordinates current_res); [| by intros [= <- _]; left].
    destruct (contribution _ _ _) as [df|e] eqn:Hdf; [| done].
    intros [= <- _]. right.
    apply contribution_frame in Hdf as (l & cells & _ & _ & Hrows & _).
    by exists df, cells.
  - rewrite (visit_rejected _ _ _ _ _ _ Hout). intros [= <- _]. by left.
Qed.

Lemma visit_all_labels {World}
    (geocoder : string -> option (provider World)) (self : Geo)
    (addrs : addresses) (names : list string)
    (dfs dfs' : list Pandas.DataFrame) (s s' : state World) :
  visit_all geocoder self addrs names dfs s = (Ok dfs', s') ->
  exists new,
    dfs' = dfs ++ new
    /\ (mjoin (Pandas.rows <$> new)).*1 `sublist_of` names.
Proof.
  revert dfs s. induction names as [|n rest IH]; intros dfs s.
  - intros [= <- _]. exists []. split; [by rewrite app_nil_r | constructor].
  - simpl. intros (dfs1 & s1 & Hvisit & Hrest)%run_bind_Ok.
    apply IH in Hrest as (new & -> & Hnew).
    apply visit_inv in Hvisit as [-> | (df & cells & -> & Hrows)].
    + exists new. split; [done |]. by constructor.
    + exists (df :: new). split; [by rewrite <- app_assoc |].
      simpl. rewrite Hrows. simpl. by constructor.
Qed.

Lemma filter_fmap_sublist {A B} (f : A -> bool) (g : A -> B) (l : list A) :
  g <$> List.filter f l `sublist_of` g <$> l.
Proof.
  induction l as [|a l IH]; simpl; [constructor |].
  destruct (f a); by constructor.
Qed.

(** X18: the rows of the returned table keep the order of the request, and
    a requested name labels at most one row per time it was requested. *)
Theorem table_rows_follow_request {World}
    (geocoder : string -> option (provider World)) (self : Geo)
    (addrs : addresses) (method_name_vec : option method_names)
    (s s' : state World) (df : Pandas.DataFrame) :
  get_multiple_method_coordinates geocoder self addrs method_name_vec s
    = (Ok (Some df), s') ->
  (Pandas.rows df).*1 `sublist_of` requested self method_name_vec.
Proof.
  unfold get_multiple_method_coordinates.
  intros (dfs & s1 & Hwalk & Hend)%run_bind_Ok.
  case_bool_decide; [| done]. injection Hend as <- _.
  apply visit_all_labels in Hwalk as (new & -> & Hnew).
  etrans; [| exact Hnew]. simpl.
  apply filter_fmap_sublist.
Qed.

Lemma table_rows_follow_request_witness :
  ["osm"]%string `sublist_of` ["osm"; "zzz"; "bing"]%string.
Proof.
  apply (table_rows_follow_request Scenario.geocoder Scenario.geo
           (AddrList ["a1"; "b"]) (Some (NamesList ["osm"; "zzz"; "bing"]))
           Scenario.start {| world := 4%nat; warnings := [not_found "zzz"] |}
           {| Pandas.columns := ["a1"; "b"];
              Pandas.rows := [("osm", [Some [1%float; 2%float]; None])] |}).
  vm_compute. reflexivity.
Defined.

(** Over a list of results the comprehension never raises: it stores the
    cells key after key. *)
Lemma dict_comprehension_points (l : list string) (rs : list (option Point))
    (acc : gmap string (list Pandas.cell)) :
  dict_comprehension (zip l (ItemPoint <$> rs)) acc
  = Ok (foldl (fun m kv => <[kv.1 := [point_cell kv.2]]> m)
          acc (zip l rs)).
Proof.
  revert rs acc. induction l as [|k l IH]; intros [|r rs] acc; try done.
  simpl. destruct r as [p|]; simpl; apply IH.
Qed.

Lemma foldl_insert_lookup_other {V W} (f : W -> V) (kvs : list (string * W))
    (acc : gmap string V) (k : string) :
  k ∉ kvs.*1 ->
  foldl (fun m kv => <[kv.1 := f kv.2]> m) acc kvs !! k = acc !! k.
Proof.
  revert acc. induction kvs as [|[k' v] kvs IH]; intros acc Hk; [done |].
  simpl in *. apply not_elem_of_cons in Hk as [Hne Hk].
  rewrite (IH _ Hk). by apply lookup_insert_ne.
Qed.

Lemma zip_keys_elem_of {V} (l : list string) (rs : list V) (k : string) :
  k ∈ (zip l rs).*1 -> k ∈ l.
Proof.
  intros ([k' v] & -> & Hin)%list_elem_of_fmap. by eapply elem_of_zip_l.
Qed.

(** With distinct keys and as many values, reading the keys back gives the
    cells in order. *)
Lemma foldl_insert_read_back (l : list string) (rs : list (option Point))
    (acc : gmap string (list Pandas.cell)) :
  NoDup l -> length rs = length l ->
  map (fun c : string =>
         (foldl (fun m kv => <[kv.1 := [point_cell kv.2]]> m)
            acc (zip l rs) !! c)
         ≫= fun col : list Pandas.cell => mjoin (col !! 0%nat)) l
  = point_cell <$> rs.
Proof.
  revert rs acc. induction l as [|k l IH]; intros [|r rs] acc Hdup Hlen;
    try done.
  apply NoDup_cons in Hdup as [Hk Hdup]. simpl in Hlen.
  simpl. f_equal.
  - rewrite (foldl_insert_lookup_other
               (fun v : option Point => [point_cell v])).
    + by rewrite lookup_insert_eq.
    + by intros Hin%zip_keys_elem_of.
  - apply IH; [done | lia].
Qed.

(** X19: when the list of results is as long as the list of addresses, and
    the addresses are distinct, the loop body appends the frame whose one
    row, labelled by the provider, holds under each address the pair
    [[x, y]] of its point, or null where the result is [None]. *)
Theorem aligned_row_contents {World}
    (geocoder : string -> option (provider World)) (self : Geo)
    (l : list string) (method_name : string)
    (dfs : list Pandas.DataFrame) (s s1 : state World)
    (rs : list (option Point)) :
  method_name ∈ allowed_methods self ->
  NoDup l -> length rs = length l ->
  get_coordinates geocoder self (AddrList l) method_name true s
    = (Ok (CList rs), s1) ->
  visit geocoder self (AddrList l) method_name dfs s
  = (Ok (dfs ++ [{| Pandas.columns := l;
                    Pandas.rows :=
                      [(method_name, point_cell <$> rs)] |}]),
     s1).
Proof.
  intros Hin Hdup Hlen Hget.
  rewrite (visit_allowed _ _ _ _ _ _ Hin), Hget.
  apply get_coordinates_inv in Hget as (method & ps & _ & _ & Hc).
  symmetry in Hc. apply return_convention_inv in Hc as [_ Hmany].
  assert (truthy_coordinates (CList rs) = true) as ->.
  { simpl. apply bool_decide_eq_true_2. intros ->. simpl in Hmany. lia. }
  unfold contribution. simpl.
  change (map ItemPoint rs) with (ItemPoint <$> rs).
  rewrite dict_comprehension_points. simpl.
  unfold Pandas.frame. simpl.
  by rewrite foldl_insert_read_back.
Qed.

Lemma aligned_row_contents_witness :
  visit Scenario.geocoder Scenario.geo (AddrList ["a1"; "b"]) "osm" []
    Scenario.start
  = (Ok [{| Pandas.columns := ["a1"; "b"];
            Pandas.rows := [("osm", [Some [1%float; 2%float]; None])] |}],
     {| world := 2%nat; warnings := [] |}).
Proof.
  apply (aligned_row_contents Scenario.geocoder Scenario.geo ["a1"; "b"]%string
           "osm" [] Scenario.start {| world := 2%nat; warnings := [] |}
           [Some (mkPoint "a1" 1 2); None]).
  - apply list_elem_of_In. vm_compute. tauto.
  - apply NoDup_cons. split; [| apply NoDup_singleton].
    by intros [=]%list_elem_of_singleton.
  - reflexivity.
  - vm_compute. reflexivity.
Defined.

(** X20: an empty list of addresses. The aggregator asks no provider and
    returns [None]; it warns once for each requested name outside the
    allow-list, and every allowed requested name has to exist in [geocoder],
    because [getattr] runs before the loop over the addresses. *)
Theorem no_address_returns_none {World}
    (geocoder : string -> option (provider World)) (self : Geo)
    (method_name_vec : option method_names) (s : state World) :
  Forall (fun n => n ∈ allowed_methods self -> is_Some (geocoder n))
    (requested self method_name_vec) ->
  get_multiple_method_coordinates geocoder self (AddrList []) method_name_vec s
  = (Ok None,
     {| world := world s;
        warnings := warnings s
          ++ (not_found <$> filter (fun n => n ∉ allowed_methods self)
                              (requested self method_name_vec)) |}).
Proof.
  intros Hknown. unfold get_multiple_method_coordinates. rewrite run_bind.
  assert (forall names (s0 : state World),
            Forall (fun n => n ∈ allowed_methods self -> is_Some (geocoder n))
              names ->
            visit_all geocoder self (AddrList []) names [] s0
            = (Ok [], {| world := world s0;
                         warnings := warnings s0
                           ++ (not_found <$> filter
                                 (fun n => n ∉ allowed_methods self) names) |}))
    as Hwalk.
  { intros names. induction names as [|n rest IH]; intros s0 Hnames.
    - simpl. rewrite app_nil_r. by destruct s0.
    - apply Forall_cons_1 in Hnames as [Hn Hrest]. simpl. rewrite run_bind.
      destruct (decide (n ∈ allowed_methods self)) as [Hin|Hout].
      + destruct (Hn Hin) as [method Hmethod].
        rewrite (visit_allowed _ _ _ _ _ _ Hin).
        rewrite (get_coordinates_run _ _ _ _ _ _ _ Hmethod). simpl.
        rewrite (IH _ Hrest), filter_cons_False; [by destruct s0 |].
        by intros []. 
      + rewrite (visit_rejected _ _ _ _ _ _ Hout), (IH _ Hrest).
        rewrite filter_cons_True by done. simpl. by rewrite <- app_assoc. }
  by rewrite (Hwalk _ _ Hknown).
Qed.

Lemma no_address_returns_none_witness :
  get_multiple_method_coordinates Scenario.geocoder Scenario.geo (AddrList [])
    (Some (NamesList ["osm"; "zzz"; "bing"])) Scenario.start
  = (Ok None, {| world := 0%nat; warnings := [not_found "zzz"] |}).
Proof.
  rewrite (no_address_returns_none Scenario.geocoder Scenario.geo
             (Some (NamesList ["osm"; "zzz"; "bing"])) Scenario.start).
  - vm_compute. reflexivity.
  - apply Forall_cons. split; [intros _; by exists Scenario.osm_method |].
    apply Forall_cons. split.
    { intros Hin%list_elem_of_In. vm_compute in Hin. exfalso.
      intuition discriminate. }
    apply Forall_cons. split; [intros _; by exists Scenario.bing_method |].
    constructor.
Defined.

(** ** Successful extraction and propagation of errors *)

(** X21: a WKT text that matches the pattern, with two tokens that
    [float()] reads, gives the candidate made of the address and the two
    numbers read. *)
Theorem get_wkt_parses (addr : string) (query_result : Response)
    (in_str gx gy : string) (fx fy : float) :
  wkt query_result = Has (Some in_str) ->
  wkt_pattern_search in_str = Some (gx, gy) ->
  Py.float_of_str gx = Some fx -> Py.float_of_str gy = Some fy ->
  get_wkt addr query_result = Ok (Some (mkPoint addr fx fy)).
Proof.
  intros Hattr Hsearch Hx Hy.
  rewrite (get_wkt_matched _ _ _ _ _ Hattr Hsearch), !float_of_VStr.
  by rewrite Hx, Hy.
Qed.

Lemma get_wkt_parses_witness :
  get_wkt "a" {| wkt := Has (Some "POINT(-122 -37)"%string); osm := Missing |}
  = Ok (Some (mkPoint "a" (-122) (-37)))
  /\ get_wkt "a" {| wkt := Has (Some "POINT(-122.084 37.4220)"%string);
                    osm := Missing |}
     = Ok (Some (mkPoint "a" (-0x1.e85604189374cp+6) 0x1.2b604189374bcp+5)).
Proof.
  split.
  - apply (get_wkt_parses "a" _ "POINT(-122 -37)" "-122" "-37");
      vm_compute; reflexivity.
  - apply (get_wkt_parses "a" _ "POINT(-122.084 37.4220)" "-122.084" "37.4220");
      vm_compute; reflexivity.
Defined.

(** X22: a structured mapping whose [x] and [y] are floats other than zero
    gives the candidate made of the address and these two floats,
    unchanged. *)
Theorem get_osm_reads_floats (addr : string) (query_result : Response)
    (d : gmap string Py.pyval) (fx fy : float) :
  osm query_result = Has (Some d) ->
  d !! "x"%string = Some (Py.VFloat fx) ->
  d !! "y"%string = Some (Py.VFloat fy) ->
  (fx =? 0)%float = false -> (fy =? 0)%float = false ->
  get_osm addr query_result = Ok (Some (mkPoint addr fx fy)).
Proof.
  intros Hattr Hx Hy Hfx Hfy. unfold get_osm. rewrite Hattr, Hx, Hy. simpl.
  rewrite bool_decide_eq_true_2.
  - by rewrite Hfx, Hfy.
  - intros ->. by rewrite lookup_empty in Hx.
Qed.

Lemma get_osm_reads_floats_witness :
  get_osm "a" {| wkt := Missing;
                 osm := Has (Some (<["x" := Py.VFloat 1.5]>
                                     (<["y" := Py.VFloat (-2)]> ∅))) |}
  = Ok (Some (mkPoint "a" 1.5 (-2))).
Proof.
  apply (get_osm_reads_floats "a" _
           (<["x" := Py.VFloat 1.5]> (<["y" := Py.VFloat (-2)]> ∅)));
    vm_compute; reflexivity.
Defined.

(** X23: the aggregator catches nothing. If the walk reaches an allowed
    name for which [get_coordinates] raises (a name that [geocoder] does not
    have, a disagreement, a text that is no number), the whole call raises
    that error, and the frames assembled so far are lost. *)
Theorem aggregator_propagates_errors {World}
    (geocoder : string -> option (provider World)) (self : Geo)
    (addrs : addresses) (method_name_vec : option method_names)
    (before after : list string) (method_name : string)
    (dfs : list Pandas.DataFrame) (s s1 s2 : state World) (e : exn) :
  requested self method_name_vec = before ++ method_name :: after ->
  visit_all geocoder self addrs before [] s = (Ok dfs, s1) ->
  method_name ∈ allowed_methods self ->
  get_coordinates geocoder self addrs method_name true s1 = (Raise e, s2) ->
  get_multiple_method_coordinates geocoder self addrs method_name_vec s
  = (Raise e, s2).
Proof.
  intros Hreq Hbefore Hin Hget. unfold get_multiple_method_coordinates.
  rewrite run_bind, Hreq, visit_all_app, run_bind, Hbefore. simpl.
  by rewrite run_bind, (visit_allowed _ _ _ _ _ _ Hin), Hget.
Qed.

Lemma aggregator_propagates_errors_witness :
  get_multiple_method_coordinates Scenario.geocoder Scenario.geo
    (AddrList ["a1"; "b"]) (Some (NamesList ["osm"; "yahoo"])) Scenario.start
  = (Raise (AttributeError "geocoder" "yahoo"),
     {| world := 2%nat; warnings := [] |}).
Proof.
  apply (aggregator_propagates_errors Scenario.geocoder Scenario.geo
           (AddrList ["a1"; "b"]) (Some (NamesList ["osm"; "yahoo"]))
           ["osm"]%string [] "yahoo"
           [{| Pandas.columns := ["a1"; "b"];
               Pandas.rows := [("osm", [Some [1%float; 2%float]; None])] |}]
           Scenario.start {| world := 2%nat; warnings := [] |}).
  - reflexivity.
  - vm_compute. reflexivity.
  - apply list_elem_of_In. vm_compute. tauto.
  - vm_compute. reflexivity.
Defined.

(** A property of every frame that one turn may build holds of all the
    frames that a walk adds. *)
Lemma visit_all_Forall {World}
    (geocoder : string -> option (provider World)) (self : Geo)
    (addrs : addresses) (P : Pandas.DataFrame -> Prop) (names : list string)
    (dfs dfs' : list Pandas.DataFrame) (s s' : state World) :
  (forall method_name current_res df,
     contribution addrs method_name current_res = Ok df -> P df) ->
  visit_all geocoder self addrs names dfs s = (Ok dfs', s') ->
  exists new, dfs' = dfs ++ new /\ Forall P new.
Proof.
  intros HP. revert dfs s. induction names as [|n rest IH]; intros dfs s.
  - intros [= <- _]. exists []. by rewrite app_nil_r.
  - simpl. intros (dfs1 & s1 & Hvisit & Hrest)%run_bind_Ok.
    apply IH in Hrest as (new & -> & Hnew).
    destruct (decide (n ∈ allowed_methods self)) as [Hin|Hout].
    + rewrite (visit_allowed _ _ _ _ _ _ Hin) in Hvisit.
      destruct (get_coordinates _ _ _ _ _ _) as [[current_res|e] s2]; [| done].
      destruct (truthy_coordinates current_res).
      * destruct (contribution _ _ _) as [df|e] eqn:Hdf; [| done].
        injection Hvisit as <- _. exists (df :: new).
        split; [by rewrite <- app_assoc |]. constructor; [by eapply HP | done].
      * injection Hvisit as <- _. by exists new.
    + rewrite (visit_rejected _ _ _ _ _ _ Hout) in Hvisit.
      injection Hvisit as <- _. by exists new.
Qed.

(** X24: addresses need not be distinct, and the table does not tell two
    equal addresses apart: in every row of the returned table, two columns
    with the same address hold the same cell (the dict comprehension keeps
    one entry per address, and both columns read it). *)
Theorem equal_addresses_share_cells {World}
    (geocoder : string -> option (provider World)) (self : Geo)
    (l : list string) (method_name_vec : option method_names)
    (s s' : state World) (df : Pandas.DataFrame) :
  get_multiple_method_coordinates geocoder self (AddrList l) method_name_vec s
    = (Ok (Some df), s') ->
  forall row i j a,
    row ∈ Pandas.rows df ->
    l !! i = Some a -> l !! j = Some a ->
    row.2 !! i = row.2 !! j.
Proof.
  unfold get_multiple_method_coordinates.
  intros (dfs & s1 & Hwalk & Hend)%run_bind_Ok row i j a Hrow Hi Hj.
  case_bool_decide; [| done]. injection Hend as <- _.
  apply dropna_all_rows in Hrow as [Hrow _].
  apply concat_rows in Hrow as (frame & Hframe & Hrow).
  apply (visit_all_Forall _ _ _
           (fun df => exists name (f : string -> Pandas.cell),
                        Pandas.rows df = [(name, map f l)]))
    in Hwalk as (new & -> & Hnew).
  - rewrite Forall_forall in Hnew.
    destruct (Hnew frame Hframe) as (name & f & Hrows).
    rewrite Hrows in Hrow. apply list_elem_of_singleton in Hrow as ->. simpl.
    change (map f l) with (f <$> l). by rewrite !list_lookup_fmap, Hi, Hj.
  - intros method_name current_res frame0 Hdf. unfold contribution in Hdf.
    invert_Ok Hdf. injection Hdf as <-. by eexists _, _.
Qed.

Lemma equal_addresses_share_cells_witness :
  [Some [1%float; 2%float]; None; Some [1%float; 2%float]] !! 0%nat
  = [Some [1%float; 2%float]; None; Some [1%float; 2%float]] !! 2%nat.
Proof.
  assert (get_multiple_method_coordinates Scenario.geocoder Scenario.geo
            (AddrList ["a1"; "b"; "a1"]) (Some (NamesList ["osm"])) Scenario.start
          = (Ok (Some {| Pandas.columns := ["a1"; "b"; "a1"];
                         Pandas.rows :=
                           [("osm", [Some [1%float; 2%float]; None;
                                     Some [1%float; 2%float]])] |}),
             {| world := 3%nat; warnings := [] |})) as Hrun
    by (vm_compute; reflexivity).
  apply (equal_addresses_share_cells _ _ _ _ _ _ _ Hrun
           ("osm"%string, [Some [1%float; 2%float]; None; Some [1%float; 2%float]])
           0%nat 2%nat "a1"%string).
  - apply elem_of_cons. by left.
  - reflexivity.
  - reflexivity.
Defined.
